(** * mcp-twikit: session acquisition and tool dispatch

    A shallow embedding of [src/mcp_twikit/twitter.py].  The module keeps
    four configuration values read from the process environment when it is
    imported, acquires a [twikit] client per tool invocation (stored cookies
    or a credential login), and exposes seventeen tools that forward to the
    client and turn every exception into a text result.

    The [twikit] client library and the operating system are external: the
    client's network operations are a record of response functions
    ([TwikitAPI]), the file system is the set of existing directories and
    the contents of the regular files, and every call made on the client or
    on the file system is recorded in a trace, as a recording test double
    would. *)

From stdpp Require Import base strings list gmap pretty.
From Stdlib Require Import ZArith Ascii String.

Local Open Scope string_scope.
Local Open Scope list_scope.
Local Open Scope Z_scope.

(** ** Python strings *)

(** The line feed of the source's ["\n"] escapes. *)
Definition nl : string := String "010"%char "".

(** [sep.join(items)] *)
Fixpoint join (sep : string) (items : list string) : string :=
  match items with
  | [] => ""
  | [x] => x
  | x :: rest => x +:+ sep +:+ join sep rest
  end.

Fixpoint char_in (c : ascii) (chars : string) : bool :=
  match chars with
  | "" => false
  | String d chars' => if Ascii.eqb c d then true else char_in c chars'
  end.

(** [s.lstrip(chars)]: drop leading characters for as long as they belong to
    [chars]. *)
Fixpoint lstrip (chars : string) (s : string) : string :=
  match s with
  | "" => ""
  | String c s' => if char_in c chars then lstrip chars s' else s
  end.

(** [s.startswith(p)] *)
Definition startswith (s p : string) : bool := String.prefix p s.

(** ['@' * k] *)
Fixpoint ats (k : nat) : string :=
  match k with
  | O => ""
  | S k' => String "@" (ats k')
  end.

(** ** Exceptions and [str()] *)

(** An instance of Python's [Exception], the class every [except] clause of
    the program names; [msg] is what [str(e)] yields.  Conditions that are
    not [Exception]s (task cancellation, interpreter exit) are not values of
    this type. *)
Inductive exn : Type := Exception (msg : string).

(** What an f-string replacement field [{x}] renders. *)
Class Str (A : Type) := str : A → string.

#[global] Instance str_string : Str string := λ s, s.
#[global] Instance str_bool : Str bool := λ b, if b then "True" else "False".
#[global] Instance str_Z : Str Z := λ n, pretty n.
#[global] Instance str_option {A} `{Str A} : Str (option A) :=
  λ o, match o with Some a => str a | None => "None" end.
#[global] Instance str_exn : Str exn := λ e, let 'Exception m := e in m.

(** ** Objects of the client library *)

Record User := {
  user_id : string;
  user_name : string;
  screen_name : string;
  description : string;
  verified : bool;
  followers_count : Z;
  following_count : Z;
  location : string;
  user_created_at : string;
  profile_image_url : string;
  profile_banner_url : option string;
}.

Record Tweet := {
  tweet_id : string;
  tweet_user : User;
  created_at : string;
  text : string;
}.

Record Trend := {
  trend_name : string;
  tweets_count : option Z;
}.

Record Message := { message_id : string }.

(** The serialized session state, opaque to this program. *)
Definition Cookies := string.

(** [twikit.Client(language, user_agent=...)] with its cookie jar. *)
Record Client := {
  language : string;
  user_agent : option string;
  cookies : option Cookies;
}.

Definition twikit_Client (lang : string) (ua : option string) : Client :=
  {| language := lang; user_agent := ua; cookies := None |}.

Definition set_cookies (c : Client) (ck : Cookies) : Client :=
  {| language := language c; user_agent := user_agent c; cookies := Some ck |}.

(** ** Paths and the file system

    The file system is what the program observes and changes of it: which
    directories exist and what the regular files hold.  Reading a file that
    is not there, writing into a directory that is not there or onto a
    directory, and making a directory where a regular file is in the way
    raise; permissions and a full disk are outside this model. *)

Definition path := list string.

(** [p / name] *)
Definition path_div (p : path) (name : string) : path := p ++ [name].

(** [p.parent] *)
Definition parent (p : path) : path := removelast p.

(** Every ancestor of [p], and [p] itself. *)
Fixpoint ancestors_or_self (p : path) : list path :=
  match p with
  | [] => [[]]
  | x :: p' => [] :: map (cons x) (ancestors_or_self p')
  end.

Record FS := {
  dirs : gset path;
  files : gmap path string;
}.

(** [p.exists()]: something is at [p], a directory or a regular file. *)
Definition fs_exists (p : path) (f : FS) : bool :=
  bool_decide (p ∈ dirs f) || bool_decide (is_Some (files f !! p)).

Definition is_file (p : path) (f : FS) : bool :=
  bool_decide (is_Some (files f !! p)).

(** [p.mkdir(parents=True, exist_ok=True)]: directories already there are
    accepted and missing ancestors are made, but a regular file at [p]
    ([FileExistsError]) or at one of its ancestors ([NotADirectoryError])
    makes the call raise, and then nothing has been made. *)
Definition fs_mkdir_parents (p : path) (f : FS) : exn + FS :=
  if is_file p f then inl (Exception "File exists")
  else if existsb (λ d, is_file d f) (ancestors_or_self p)
  then inl (Exception "Not a directory")
  else inr {| dirs := list_to_set (ancestors_or_self p) ∪ dirs f; files := files f |}.

(** Writing a regular file: [p] must not be a directory, and the directory
    it goes into must be there. *)
Definition fs_write (p : path) (data : string) (f : FS) : exn + FS :=
  if bool_decide (p ∈ dirs f) then inl (Exception "Is a directory")
  else if bool_decide (parent p ∈ dirs f)
  then inr {| dirs := dirs f; files := <[p := data]> (files f) |}
  else inl (Exception "No such file or directory").

Definition fs_read (p : path) (f : FS) : exn + string :=
  match files f !! p with
  | Some data => inr data
  | None => inl (Exception "No such file or directory")
  end.

(** ** The recorded calls and the process state *)

(** One entry per call made on the client object or creating a directory,
    with the arguments it was given. *)
Inductive Call : Type :=
  | CallClient (lang : string) (ua : option string)
  | CallLoadCookies (p : path)
  | CallLogin (auth_info_1 auth_info_2 password : option string)
  | CallMkdir (p : path)
  | CallSaveCookies (p : path)
  | CallSearchTweet (query product : string) (count : Z)
  | CallGetUserByScreenName (name : string)
  | CallGetUserTweets (uid tweet_type : string) (count : Z)
  | CallGetTimeline (count : Z)
  | CallGetLatestTimeline (count : Z)
  | CallCreateTweet (txt : string) (media_ids : option (list string))
                    (poll_uri reply_to : option string)
  | CallFavoriteTweet (tid : string)
  | CallRetweet (tid : string)
  | CallFollowUser (uid : string)
  | CallUnfollowUser (uid : string)
  | CallBlockUser (uid : string)
  | CallUnblockUser (uid : string)
  | CallGetUserFollowers (uid : string) (count : Z)
  | CallGetUserFollowing (uid : string) (count : Z)
  | CallSendDm (uid txt : string) (media_id : option string)
  | CallGetTrends (category : string) (count : Z).

Definition is_login (c : Call) : bool :=
  match c with CallLogin _ _ _ => true | _ => false end.

Definition is_fs_write (c : Call) : bool :=
  match c with CallMkdir _ | CallSaveCookies _ => true | _ => false end.

(** The names handed to [client.get_user_by_screen_name], in call order. *)
Fixpoint lookup_args (cs : list Call) : list string :=
  match cs with
  | [] => []
  | CallGetUserByScreenName n :: cs' => n :: lookup_args cs'
  | _ :: cs' => lookup_args cs'
  end.

Record State := {
  fs : FS;
  environ : gmap string string;   (* os.environ, as it is now *)
  log : list string;              (* what logger.error has emitted *)
  calls : list Call;
}.

Definition set_fs (f : FS) (s : State) : State :=
  {| fs := f; environ := environ s; log := log s; calls := calls s |}.
Definition set_environ (e : gmap string string) (s : State) : State :=
  {| fs := fs s; environ := e; log := log s; calls := calls s |}.
Definition add_log (line : string) (s : State) : State :=
  {| fs := fs s; environ := environ s; log := log s ++ [line]; calls := calls s |}.
Definition add_call (c : Call) (s : State) : State :=
  {| fs := fs s; environ := environ s; log := log s; calls := calls s ++ [c] |}.

(** ** Computations that may raise *)

Definition M (S A : Type) : Type := S → (exn + A) * S.

#[global] Instance M_ret {S} : MRet (M S) := λ A a s, (inr a, s).
#[global] Instance M_bind {S} : MBind (M S) := λ A B f m s,
  match m s with
  | (inr a, s') => f a s'
  | (inl e, s') => (inl e, s')
  end.

Definition raise {S A} (e : exn) : M S A := λ s, (inl e, s).

(** [try: body except Exception as e: handler e]; what the body did to the
    state before raising stays done. *)
Definition try_except {S A} (body : M S A) (handler : exn → M S A) : M S A :=
  λ s, match body s with
       | (inr a, s') => (inr a, s')
       | (inl e, s') => handler e s'
       end.

(** A function body with one local variable that is rebound on the way; the
    binding in force when an exception is raised is the one its handler
    reads. *)
Definition with_local {L A} (l0 : L) (m : M (L * State) A) : M State A :=
  λ s, let '(r, (_, s')) := m (l0, s) in (r, s').
Definition lift {L A} (m : M State A) : M (L * State) A :=
  λ '(l, s), let '(r, s') := m s in (r, (l, s')).
Definition get_local {L} : M (L * State) L := λ '(l, s), (inr l, (l, s)).
Definition set_local {L} (l : L) : M (L * State) unit := λ '(_, s), (inr tt, (l, s)).

Definition logger_error (line : string) : M State unit :=
  λ s, (inr tt, add_log line s).

(** A call whose outcome [r] the outside world decides. *)
Definition call {A} (c : Call) (r : exn + A) : M State A :=
  λ s, (r, add_call c s).

(** ** Module level: configuration read at import *)

Record Globals := {
  USERNAME : option string;
  EMAIL : option string;
  PASSWORD : option string;
  USER_AGENT : option string;
  COOKIES_PATH : path;
}.

(** [os.getenv(name)] *)
Definition getenv (env : gmap string string) (name : string) : option string :=
  env !! name.

(** Executing the module's top level in a process whose environment is [env]
    and whose user has home directory [home]. *)
Definition module_init (env : gmap string string) (home : path) : Globals :=
  {| USERNAME := getenv env "TWITTER_USERNAME";
     EMAIL := getenv env "TWITTER_EMAIL";
     PASSWORD := getenv env "TWITTER_PASSWORD";
     USER_AGENT := getenv env "USER_AGENT";
     COOKIES_PATH := path_div (path_div home ".mcp-twikit") "cookies.json" |}.

(** ** The client library's responses *)

Record TwikitAPI := {
  (* the error [json.load] raises on a file's content, if it raises *)
  api_json_error : string → option exn;
  api_login : Client → option string → option string → option string → exn + Cookies;
  api_search_tweet : Client → string → string → Z → exn + list Tweet;
  api_get_user_by_screen_name : Client → string → exn + option User;
  api_get_user_tweets : Client → string → string → Z → exn + list Tweet;
  api_get_timeline : Client → Z → exn + list Tweet;
  api_get_latest_timeline : Client → Z → exn + list Tweet;
  api_create_tweet : Client → string → option (list string) → option string →
                     option string → exn + Tweet;
  api_favorite_tweet : Client → string → exn + unit;
  api_retweet : Client → string → exn + unit;
  api_follow_user : Client → string → exn + unit;
  api_unfollow_user : Client → string → exn + unit;
  api_block_user : Client → string → exn + unit;
  api_unblock_user : Client → string → exn + unit;
  api_get_user_followers : Client → string → Z → exn + list User;
  api_get_user_following : Client → string → Z → exn + list User;
  api_send_dm : Client → string → string → option string → exn + Message;
  api_get_trends : Client → string → Z → exn + list Trend;
}.

(** [convert_tweets_to_markdown]: the loop appends one rendered item per
    tweet, then the items are joined. *)
Definition tweet_markdown (tweet : Tweet) : string :=
  "**@" +:+ str (screen_name (tweet_user tweet)) +:+ "** - " +:+ str (created_at tweet)
  +:+ nl +:+ str (text tweet).

Definition convert_tweets_to_markdown (tweets : list Tweet) : string :=
  let markdown_tweets :=
    foldl (λ markdown_tweets tweet, markdown_tweets ++ [tweet_markdown tweet]) [] tweets in
  join (nl +:+ nl) markdown_tweets.

Section Program.

Variable api : TwikitAPI.
Variable g : Globals.

(** *** Methods of the client object and of [Path] *)

Definition new_client (lang : string) (ua : option string) : M State Client :=
  call (CallClient lang ua) (inr (twikit_Client lang ua)).

Definition path_exists (p : path) : M State bool :=
  λ s, (inr (fs_exists p (fs s)), s).

(** [client.load_cookies(p)]: the file is opened and its content parsed;
    either step may raise, and only then are the cookies installed. *)
Definition client_load_cookies (client : Client) (p : path) : M State Client :=
  λ s, match fs_read p (fs s) with
       | inr data =>
           match api_json_error api data with
           | None => (inr (set_cookies client data), add_call (CallLoadCookies p) s)
           | Some e => (inl e, add_call (CallLoadCookies p) s)
           end
       | inl e => (inl e, add_call (CallLoadCookies p) s)
       end.

Definition client_login (client : Client) (auth_info_1 auth_info_2 password : option string)
  : M State Client :=
  ck ← call (CallLogin auth_info_1 auth_info_2 password)
            (api_login api client auth_info_1 auth_info_2 password);
  mret (set_cookies client ck).

Definition mkdir_parents (p : path) : M State unit :=
  λ s, match fs_mkdir_parents p (fs s) with
       | inr f => (inr tt, add_call (CallMkdir p) (set_fs f s))
       | inl e => (inl e, add_call (CallMkdir p) s)
       end.

Definition client_save_cookies (client : Client) (p : path) : M State unit :=
  λ s, match fs_write p (default "{}" (cookies client)) (fs s) with
       | inr f => (inr tt, add_call (CallSaveCookies p) (set_fs f s))
       | inl e => (inl e, add_call (CallSaveCookies p) s)
       end.

(** *** Session acquisition *)

Definition get_twitter_client : M State Client :=
  client ← new_client "en-US" (USER_AGENT g);
  artifact_exists ← path_exists (COOKIES_PATH g);
  if (artifact_exists : bool) then
    client ← client_load_cookies client (COOKIES_PATH g);
    mret client
  else
    client ← try_except
      (client_login client (USERNAME g) (EMAIL g) (PASSWORD g))
      (λ e, logger_error ("Failed to login: " +:+ str e);; raise e);
    mkdir_parents (parent (COOKIES_PATH g));;
    client_save_cookies client (COOKIES_PATH g);;
    mret client.

(** *** Network methods of the client: recorded, answered by [api] *)

Definition client_search_tweet (client : Client) (query product : string) (count : Z) :=
  call (CallSearchTweet query product count) (api_search_tweet api client query product count).
Definition client_get_user_by_screen_name (client : Client) (name : string) :=
  call (CallGetUserByScreenName name) (api_get_user_by_screen_name api client name).
Definition client_get_user_tweets (client : Client) (uid tweet_type : string) (count : Z) :=
  call (CallGetUserTweets uid tweet_type count)
       (api_get_user_tweets api client uid tweet_type count).
Definition client_get_timeline (client : Client) (count : Z) :=
  call (CallGetTimeline count) (api_get_timeline api client count).
Definition client_get_latest_timeline (client : Client) (count : Z) :=
  call (CallGetLatestTimeline count) (api_get_latest_timeline api client count).
Definition client_create_tweet (client : Client) (txt : string)
    (media_ids : option (list string)) (poll_uri reply_to : option string) :=
  call (CallCreateTweet txt media_ids poll_uri reply_to)
       (api_create_tweet api client txt media_ids poll_uri reply_to).
Definition client_favorite_tweet (client : Client) (tid : string) :=
  call (CallFavoriteTweet tid) (api_favorite_tweet api client tid).
Definition client_retweet (client : Client) (tid : string) :=
  call (CallRetweet tid) (api_retweet api client tid).
Definition client_follow_user (client : Client) (uid : string) :=
  call (CallFollowUser uid) (api_follow_user api client uid).
Definition client_unfollow_user (client : Client) (uid : string) :=
  call (CallUnfollowUser uid) (api_unfollow_user api client uid).
Definition client_block_user (client : Client) (uid : string) :=
  call (CallBlockUser uid) (api_block_user api client uid).
Definition client_unblock_user (client : Client) (uid : string) :=
  call (CallUnblockUser uid) (api_unblock_user api client uid).
Definition client_get_user_followers (client : Client) (uid : string) (count : Z) :=
  call (CallGetUserFollowers uid count) (api_get_user_followers api client uid count).
Definition client_get_user_following (client : Client) (uid : string) (count : Z) :=
  call (CallGetUserFollowing uid count) (api_get_user_following api client uid count).
Definition client_send_dm (client : Client) (uid txt : string) (media_id : option string) :=
  call (CallSendDm uid txt media_id) (api_send_dm api client uid txt media_id).
Definition client_get_trends (client : Client) (category : string) (count : Z) :=
  call (CallGetTrends category count) (api_get_trends api client category count).

(** *** The tools

    Each tool is [try: ... except Exception as e: ...]; the [_try] definition
    is the block under [try].  The unused [ctx] argument is left out. *)

Definition search_twitter_try (query sort_by : string) (count : Z) : M State string :=
  client ← get_twitter_client;
  tweets ← client_search_tweet client query sort_by count;
  mret (convert_tweets_to_markdown tweets).

Definition search_twitter (query sort_by : string) (count : Z) : M State string :=
  try_except (search_twitter_try query sort_by count)
    (λ e, logger_error ("Failed to search tweets: " +:+ str e);;
          mret ("Failed to search tweets: " +:+ str e)).

Definition get_user_tweets_try (username tweet_type : string) (count : Z) : M State string :=
  client ← get_twitter_client;
  let username := lstrip "@" username in
  user ← client_get_user_by_screen_name client username;
  match user with
  | None => mret ("Could not find user " +:+ str username)
  | Some user =>
      tweets ← client_get_user_tweets client (user_id user) tweet_type count;
      mret (convert_tweets_to_markdown tweets)
  end.

Definition get_user_tweets (username tweet_type : string) (count : Z) : M State string :=
  try_except (get_user_tweets_try username tweet_type count)
    (λ e, logger_error ("Failed to get user tweets: " +:+ str e);;
          mret ("Failed to get user tweets: " +:+ str e)).

Definition get_timeline_try (count : Z) : M State string :=
  client ← get_twitter_client;
  tweets ← client_get_timeline client count;
  mret (convert_tweets_to_markdown tweets).

Definition get_timeline (count : Z) : M State string :=
  try_except (get_timeline_try count)
    (λ e, logger_error ("Failed to get timeline: " +:+ str e);;
          mret ("Failed to get timeline: " +:+ str e)).

Definition get_latest_timeline_try (count : Z) : M State string :=
  client ← get_twitter_client;
  tweets ← client_get_latest_timeline client count;
  mret (convert_tweets_to_markdown tweets).

Definition get_latest_timeline (count : Z) : M State string :=
  try_except (get_latest_timeline_try count)
    (λ e, logger_error ("Failed to get latest timeline: " +:+ str e);;
          mret ("Failed to get latest timeline: " +:+ str e)).

Definition create_tweet_try (txt : string) (media_ids : option (list string))
    (poll_uri : option string) : M State string :=
  client ← get_twitter_client;
  tweet ← client_create_tweet client txt media_ids poll_uri None;
  mret ("Tweet created successfully: " +:+ str (tweet_id tweet)).

Definition create_tweet (txt : string) (media_ids : option (list string))
    (poll_uri : option string) : M State string :=
  try_except (create_tweet_try txt media_ids poll_uri)
    (λ e, logger_error ("Failed to create tweet: " +:+ str e);;
          mret ("Failed to create tweet: " +:+ str e)).

Definition reply_to_tweet_try (tid txt : string) (media_ids : option (list string))
  : M State string :=
  client ← get_twitter_client;
  tweet ← client_create_tweet client txt media_ids None (Some tid);
  mret ("Reply sent successfully: " +:+ str (tweet_id tweet)).

Definition reply_to_tweet (tid txt : string) (media_ids : option (list string))
  : M State string :=
  try_except (reply_to_tweet_try tid txt media_ids)
    (λ e, logger_error ("Failed to reply to tweet: " +:+ str e);;
          mret ("Failed to reply to tweet: " +:+ str e)).

Definition like_tweet_try (tid : string) : M State string :=
  client ← get_twitter_client;
  client_favorite_tweet client tid;;
  mret ("Tweet " +:+ str tid +:+ " liked successfully.").

Definition like_tweet (tid : string) : M State string :=
  try_except (like_tweet_try tid)
    (λ e, logger_error ("Failed to like tweet: " +:+ str e);;
          mret ("Failed to like tweet: " +:+ str e)).

Definition retweet_try (tid : string) : M State string :=
  client ← get_twitter_client;
  client_retweet client tid;;
  mret ("Tweet " +:+ str tid +:+ " retweeted successfully.").

Definition retweet (tid : string) : M State string :=
  try_except (retweet_try tid)
    (λ e, logger_error ("Failed to retweet: " +:+ str e);;
          mret ("Failed to retweet: " +:+ str e)).

Definition follow_user_try (username : string) : M State string :=
  client ← get_twitter_client;
  let username := lstrip "@" username in
  user ← client_get_user_by_screen_name client username;
  match user with
  | None => mret ("Could not find user " +:+ str username)
  | Some user =>
      client_follow_user client (user_id user);;
      mret ("Successfully followed user " +:+ str username)
  end.

Definition follow_user (username : string) : M State string :=
  try_except (follow_user_try username)
    (λ e, logger_error ("Failed to follow user: " +:+ str e);;
          mret ("Failed to follow user: " +:+ str e)).

Definition unfollow_user_try (username : string) : M State string :=
  client ← get_twitter_client;
  let username := lstrip "@" username in
  user ← client_get_user_by_screen_name client username;
  match user with
  | None => mret ("Could not find user " +:+ str username)
  | Some user =>
      client_unfollow_user client (user_id user);;
      mret ("Successfully unfollowed user " +:+ str username)
  end.

Definition unfollow_user (username : string) : M State string :=
  try_except (unfollow_user_try username)
    (λ e, logger_error ("Failed to unfollow user: " +:+ str e);;
          mret ("Failed to unfollow user: " +:+ str e)).

Definition block_user_try (username : string) : M State string :=
  client ← get_twitter_client;
  let username := lstrip "@" username in
  user ← client_get_user_by_screen_name client username;
  match user with
  | None => mret ("Could not find user " +:+ str username)
  | Some user =>
      client_block_user client (user_id user);;
      mret ("Successfully blocked user " +:+ str username)
  end.

Definition block_user (username : string) : M State string :=
  try_except (block_user_try username)
    (λ e, logger_error ("Failed to block user: " +:+ str e);;
          mret ("Failed to block user: " +:+ str e)).

Definition unblock_user_try (username : string) : M State string :=
  client ← get_twitter_client;
  let username := lstrip "@" username in
  user ← client_get_user_by_screen_name client username;
  match user with
  | None => mret ("Could not find user " +:+ str username)
  | Some user =>
      client_unblock_user client (user_id user);;
      mret ("Successfully unblocked user " +:+ str username)
  end.

Definition unblock_user (username : string) : M State string :=
  try_except (unblock_user_try username)
    (λ e, logger_error ("Failed to unblock user: " +:+ str e);;
          mret ("Failed to unblock user: " +:+ str e)).

Definition get_user_by_screen_name_try (username : string) : M State string :=
  client ← get_twitter_client;
  let username := lstrip "@" username in
  user ← client_get_user_by_screen_name client username;
  match user with
  | None => mret ("Could not find user with screen name " +:+ str username)
  | Some user =>
      let user_info :=
        "ID: " +:+ str (user_id user) +:+ nl +:+
        "Name: " +:+ str (user_name user) +:+ nl +:+
        "Screen Name: " +:+ str (screen_name user) +:+ nl +:+
        "Description: " +:+ str (description user) +:+ nl +:+
        "Verified: " +:+ str (verified user) +:+ nl +:+
        "Followers Count: " +:+ str (followers_count user) +:+ nl +:+
        "Following Count: " +:+ str (following_count user) +:+ nl +:+
        "Location: " +:+ str (location user) +:+ nl +:+
        "Created At: " +:+ str (user_created_at user) +:+ nl +:+
        "Profile Image URL: " +:+ str (profile_image_url user) +:+ nl +:+
        "Profile Banner URL: " +:+ str (profile_banner_url user) +:+ nl in
      mret user_info
  end.

Definition get_user_by_screen_name (username : string) : M State string :=
  try_except (get_user_by_screen_name_try username)
    (λ e, logger_error ("Failed to retrieve user by screen name: " +:+ str e);;
          mret ("Failed to retrieve user by screen name: " +:+ str e)).

(** In the next two tools the handler's message reads [username], which the
    [try] block rebinds after the session has been acquired: the variable is
    kept as the function's local. *)

Definition user_line (u : User) : string :=
  "  - @" +:+ str (screen_name u) +:+ " (ID: " +:+ str (user_id u) +:+ ")".

Definition get_user_followers_try (count : Z) : M (string * State) string :=
  client ← lift get_twitter_client;
  username ← get_local;
  set_local (lstrip "@" username);;
  username ← get_local;
  user ← lift (client_get_user_by_screen_name client username);
  match user with
  | None => mret ("Could not find user " +:+ str username)
  | Some user =>
      followers ← lift (client_get_user_followers client (user_id user) count);
      let followers_info := join nl (map user_line followers) in
      mret ("Followers of " +:+ str username +:+ ":" +:+ nl +:+ followers_info)
  end.

Definition get_user_followers_except (e : exn) : M (string * State) string :=
  username ← get_local;
  lift (logger_error
          ("Failed to get followers for user " +:+ str username +:+ ": " +:+ str e));;
  mret ("Failed to get followers for user " +:+ str username +:+ ": " +:+ str e).

Definition get_user_followers (username : string) (count : Z) : M State string :=
  with_local username
    (try_except (get_user_followers_try count) get_user_followers_except).

Definition get_user_following_try (count : Z) : M (string * State) string :=
  client ← lift get_twitter_client;
  username ← get_local;
  set_local (lstrip "@" username);;
  username ← get_local;
  user ← lift (client_get_user_by_screen_name client username);
  match user with
  | None => mret ("Could not find user " +:+ str username)
  | Some user =>
      following ← lift (client_get_user_following client (user_id user) count);
      let following_info := join nl (map user_line following) in
      mret ("Users followed by " +:+ str username +:+ ":" +:+ nl +:+ following_info)
  end.

Definition get_user_following_except (e : exn) : M (string * State) string :=
  username ← get_local;
  lift (logger_error
          ("Failed to get following list for user " +:+ str username +:+ ": " +:+ str e));;
  mret ("Failed to get following list for user " +:+ str username +:+ ": " +:+ str e).

Definition get_user_following (username : string) (count : Z) : M State string :=
  with_local username
    (try_except (get_user_following_try count) get_user_following_except).

Definition send_dm_try (uid txt : string) (media_id : option string) : M State string :=
  client ← get_twitter_client;
  message ← client_send_dm client uid txt media_id;
  mret ("Direct message sent successfully: " +:+ str (message_id message)).

Definition send_dm (uid txt : string) (media_id : option string) : M State string :=
  try_except (send_dm_try uid txt media_id)
    (λ e, logger_error ("Failed to send DM: " +:+ str e);;
          mret ("Failed to send DM: " +:+ str e)).

Definition trend_line (trend : Trend) : string :=
  "  - " +:+ str (trend_name trend) +:+ " (Tweets: " +:+ str (tweets_count trend) +:+ ")".

Definition get_trends_try (category : string) (count : Z) : M State string :=
  client ← get_twitter_client;
  trends ← client_get_trends client category count;
  let trends_info := join nl (map trend_line trends) in
  mret ("Trends in " +:+ str category +:+ ":" +:+ nl +:+ trends_info).

Definition get_trends (category : string) (count : Z) : M State string :=
  try_except (get_trends_try category count)
    (λ e, logger_error ("Failed to get trends: " +:+ str e);;
          mret ("Failed to get trends: " +:+ str e)).

(** *** The tool registry *)

(** An invocation of one of the registered tools with its arguments. *)
Inductive ToolCall : Type :=
  | SearchTwitter (query sort_by : string) (count : Z)
  | GetUserTweets (username tweet_type : string) (count : Z)
  | GetTimeline (count : Z)
  | GetLatestTimeline (count : Z)
  | CreateTweet (txt : string) (media_ids : option (list string)) (poll_uri : option string)
  | ReplyToTweet (tid txt : string) (media_ids : option (list string))
  | LikeTweet (tid : string)
  | Retweet (tid : string)
  | FollowUser (username : string)
  | UnfollowUser (username : string)
  | BlockUser (username : string)
  | UnblockUser (username : string)
  | GetUserByScreenName (username : string)
  | GetUserFollowers (username : string) (count : Z)
  | GetUserFollowing (username : string) (count : Z)
  | SendDm (uid txt : string) (media_id : option string)
  | GetTrends (category : string) (count : Z).

Definition run_tool (t : ToolCall) : M State string :=
  match t with
  | SearchTwitter q sb n => search_twitter q sb n
  | GetUserTweets u ty n => get_user_tweets u ty n
  | GetTimeline n => get_timeline n
  | GetLatestTimeline n => get_latest_timeline n
  | CreateTweet tx m p => create_tweet tx m p
  | ReplyToTweet ti tx m => reply_to_tweet ti tx m
  | LikeTweet ti => like_tweet ti
  | Retweet ti => retweet ti
  | FollowUser u => follow_user u
  | UnfollowUser u => unfollow_user u
  | BlockUser u => block_user u
  | UnblockUser u => unblock_user u
  | GetUserByScreenName u => get_user_by_screen_name u
  | GetUserFollowers u n => get_user_followers u n
  | GetUserFollowing u n => get_user_following u n
  | SendDm ui tx m => send_dm ui tx m
  | GetTrends c n => get_trends c n
  end.

(** The block under [try] of each tool, run on its own: what it returns or
    the exception that leaves it. *)
Definition run_try_block (t : ToolCall) : M State string :=
  match t with
  | SearchTwitter q sb n => search_twitter_try q sb n
  | GetUserTweets u ty n => get_user_tweets_try u ty n
  | GetTimeline n => get_timeline_try n
  | GetLatestTimeline n => get_latest_timeline_try n
  | CreateTweet tx m p => create_tweet_try tx m p
  | ReplyToTweet ti tx m => reply_to_tweet_try ti tx m
  | LikeTweet ti => like_tweet_try ti
  | Retweet ti => retweet_try ti
  | FollowUser u => follow_user_try u
  | UnfollowUser u => unfollow_user_try u
  | BlockUser u => block_user_try u
  | UnblockUser u => unblock_user_try u
  | GetUserByScreenName u => get_user_by_screen_name_try u
  | GetUserFollowers u n => with_local u (get_user_followers_try n)
  | GetUserFollowing u n => with_local u (get_user_following_try n)
  | SendDm ui tx m => send_dm_try ui tx m
  | GetTrends c n => get_trends_try c n
  end.

End Program.

(** The [<action>] of each tool's ["Failed to <action>: <detail>"] message.
    Two tools put the user name into it, as passed or with its leading at
    signs removed, depending on where the exception was raised. *)
Definition actions (t : ToolCall) : list string :=
  match t with
  | SearchTwitter _ _ _ => ["search tweets"]
  | GetUserTweets _ _ _ => ["get user tweets"]
  | GetTimeline _ => ["get timeline"]
  | GetLatestTimeline _ => ["get latest timeline"]
  | CreateTweet _ _ _ => ["create tweet"]
  | ReplyToTweet _ _ _ => ["reply to tweet"]
  | LikeTweet _ => ["like tweet"]
  | Retweet _ => ["retweet"]
  | FollowUser _ => ["follow user"]
  | UnfollowUser _ => ["unfollow user"]
  | BlockUser _ => ["block user"]
  | UnblockUser _ => ["unblock user"]
  | GetUserByScreenName _ => ["retrieve user by screen name"]
  | GetUserFollowers u _ =>
      ["get followers for user " +:+ u; "get followers for user " +:+ lstrip "@" u]
  | GetUserFollowing u _ =>
      ["get following list for user " +:+ u; "get following list for user " +:+ lstrip "@" u]
  | SendDm _ _ _ => ["send DM"]
  | GetTrends _ _ => ["get trends"]
  end.

(** The action named when the exception comes out of session acquisition,
    before any rebinding of the arguments. *)
Definition action_at_entry (t : ToolCall) : string :=
  match actions t with a :: _ => a | [] => "" end.

(** The tools that take a user name, each applied to the name. *)
Inductive UserTool : Type :=
  | UTGetUserTweets (tweet_type : string) (count : Z)
  | UTFollowUser | UTUnfollowUser | UTBlockUser | UTUnblockUser
  | UTGetUserByScreenName
  | UTGetUserFollowers (count : Z)
  | UTGetUserFollowing (count : Z).

Definition user_tool_call (u : UserTool) (username : string) : ToolCall :=
  match u with
  | UTGetUserTweets ty n => GetUserTweets username ty n
  | UTFollowUser => FollowUser username
  | UTUnfollowUser => UnfollowUser username
  | UTBlockUser => BlockUser username
  | UTUnblockUser => UnblockUser username
  | UTGetUserByScreenName => GetUserByScreenName username
  | UTGetUserFollowers n => GetUserFollowers username n
  | UTGetUserFollowing n => GetUserFollowing username n
  end.

(** ** Test doubles *)

Definition user_named (name : string) : User :=
  {| user_id := ""; user_name := ""; screen_name := name; description := "";
     verified := false; followers_count := 0; following_count := 0; location := "";
     user_created_at := ""; profile_image_url := ""; profile_banner_url := None |}.

Definition tweet_of (name created txt : string) : Tweet :=
  {| tweet_id := ""; tweet_user := user_named name; created_at := created; text := txt |}.

(** The double quote character. *)
Definition dq : string := String "034"%char "".

(** A cookie file as [save_cookies] writes it: a JSON object with one
    cookie. *)
Definition cookie_blob (value : string) : string :=
  "{" +:+ dq +:+ "ct0" +:+ dq +:+ ": " +:+ dq +:+ value +:+ dq +:+ "}".

Definition stored_blob : string := cookie_blob "stored".
Definition fresh_blob : string := cookie_blob "fresh".

(** A client double: [login] and the screen-name lookup answer as told,
    content is parsed when it begins like a JSON object, and the other
    operations succeed with empty results. *)
Definition stub_api (login_result : exn + Cookies)
    (lookup_result : string → exn + option User) : TwikitAPI :=
  {| api_json_error := λ data,
       if startswith data "{" then None else Some (Exception "Expecting value");
     api_login := λ _ _ _ _, login_result;
     api_search_tweet := λ _ _ _ _, inr [];
     api_get_user_by_screen_name := λ _ name, lookup_result name;
     api_get_user_tweets := λ _ _ _ _, inr [];
     api_get_timeline := λ _ _, inr [];
     api_get_latest_timeline := λ _ _, inr [];
     api_create_tweet := λ _ _ _ _ _, inr (tweet_of "" "" "");
     api_favorite_tweet := λ _ _, inr tt;
     api_retweet := λ _ _, inr tt;
     api_follow_user := λ _ _, inr tt;
     api_unfollow_user := λ _ _, inr tt;
     api_block_user := λ _ _, inr tt;
     api_unblock_user := λ _ _, inr tt;
     api_get_user_followers := λ _ _ _, inr [];
     api_get_user_following := λ _ _ _, inr [];
     api_send_dm := λ _ _ _ _, inr {| message_id := "" |};
     api_get_trends := λ _ _ _, inr [] |}.

Definition home_dir : path := ["home"; "u"].

Definition env_of (user : string) : gmap string string :=
  {[ "TWITTER_USERNAME" := user; "TWITTER_EMAIL" := "u@example.org";
     "TWITTER_PASSWORD" := "secret" ]}.

(** A process that has just started: only the home directory is there. *)
Definition fresh_state (env : gmap string string) : State :=
  {| fs := {| dirs := list_to_set (ancestors_or_self home_dir); files := ∅ |};
     environ := env; log := []; calls := [] |}.

(** A process whose user has logged in before: the artifact is stored. *)
Definition logged_in_state (env : gmap string string) (blob : string) : State :=
  {| fs := {| dirs := list_to_set (ancestors_or_self (home_dir ++ [".mcp-twikit"]));
              files := {[ home_dir ++ [".mcp-twikit"; "cookies.json"] := blob ]} |};
     environ := env; log := []; calls := [] |}.

Definition g0 : Globals := module_init (env_of "alice") home_dir.

(** A process whose artifact file does not parse. *)
Definition corrupted_state (env : gmap string string) : State :=
  logged_in_state env "not json".

(** A process in whose home a regular file sits where the application
    directory would go. *)
Definition file_in_the_way_state (env : gmap string string) : State :=
  {| fs := {| dirs := list_to_set (ancestors_or_self home_dir);
              files := {[ home_dir ++ [".mcp-twikit"] := "notes" ]} |};
     environ := env; log := []; calls := [] |}.

(** A process at whose cookie path a directory sits. *)
Definition directory_at_cookie_path_state (env : gmap string string) : State :=
  {| fs := {| dirs := list_to_set
                        (ancestors_or_self (home_dir ++ [".mcp-twikit"; "cookies.json"]));
              files := ∅ |};
     environ := env; log := []; calls := [] |}.

(** ** Successive invocations and what a tool calls *)

(** The calls that go over the network to the service, as opposed to the
    client's construction and the handling of the artifact. *)
Definition is_network (c : Call) : bool :=
  match c with
  | CallClient _ _ | CallLoadCookies _ | CallLogin _ _ _ | CallMkdir _
  | CallSaveCookies _ => false
  | _ => true
  end.

(** The call a user-name tool makes once the lookup has produced the user
    with identifier [uid]; the lookup tool itself makes none. *)
Definition user_tool_action (u : UserTool) (uid : string) : list Call :=
  match u with
  | UTGetUserTweets ty n => [CallGetUserTweets uid ty n]
  | UTFollowUser => [CallFollowUser uid]
  | UTUnfollowUser => [CallUnfollowUser uid]
  | UTBlockUser => [CallBlockUser uid]
  | UTUnblockUser => [CallUnblockUser uid]
  | UTGetUserByScreenName => []
  | UTGetUserFollowers n => [CallGetUserFollowers uid n]
  | UTGetUserFollowing n => [CallGetUserFollowing uid n]
  end.

(** The text a user-name tool returns when the lookup yields no user. *)
Definition not_found_text (u : UserTool) (name : string) : string :=
  match u with
  | UTGetUserByScreenName => "Could not find user with screen name " +:+ name
  | _ => "Could not find user " +:+ name
  end.

(** The server answering one invocation after the other, each on the state
    the previous one left. *)
Fixpoint run_tools (api : TwikitAPI) (g : Globals) (ts : list ToolCall) (s : State)
  : list (exn + string) * State :=
  match ts with
  | [] => ([], s)
  | t :: ts' =>
      let '(r, s1) := run_tool api g t s in
      let '(rs, s2) := run_tools api g ts' s1 in
      (r :: rs, s2)
  end.

(** * Properties *)

(** ** Strings *)

Example lstrip_examples :
  lstrip "@" "@alice" = "alice" ∧ lstrip "@" "@@alice" = "alice"
  ∧ lstrip "@" "al@ice" = "al@ice" ∧ lstrip "@" "@@" = "" ∧ lstrip "@" "" = "".
Proof. repeat split. Qed.

Lemma lstrip_at_cons (s : string) : lstrip "@" (String "@" s) = lstrip "@" s.
Proof. reflexivity. Qed.

Lemma lstrip_ats (k : nat) (s : string) : lstrip "@" (ats k +:+ s) = lstrip "@" s.
Proof. induction k as [|k IH]; [reflexivity | exact IH]. Qed.

Lemma lstrip_no_at (s : string) : startswith s "@" = false → lstrip "@" s = s.
Proof.
  destruct s as [|c s]; [reflexivity|].
  unfold startswith; simpl.
  destruct (Ascii.eqb_spec "@"%char c) as [<-|Hne].
  - destruct s; discriminate.
  - intros _. destruct (Ascii.eqb_spec c "@"%char) as [->|_]; [contradiction|reflexivity].
Qed.

Lemma lstrip_at_run (s : string) : ∃ k, s = ats k +:+ lstrip "@" s.
Proof.
  induction s as [|c s IH]; [by exists O|].
  simpl. destruct (Ascii.eqb_spec c "@"%char) as [->|Hne].
  - destruct IH as [k Hk]. exists (S k). exact (f_equal (String "@") Hk).
  - by exists O.
Qed.

Lemma lstrip_at_head (s : string) : startswith (lstrip "@" s) "@" = false.
Proof.
  induction s as [|c s IH]; [reflexivity|].
  simpl. destruct (Ascii.eqb_spec c "@"%char) as [->|Hne]; [exact IH|].
  unfold startswith.
  change (String.prefix "@" (String c s))
    with (if ascii_dec "@"%char c then String.prefix "" s else false).
  destruct (ascii_dec "@"%char c) as [<-|_]; [contradiction | reflexivity].
Qed.

Lemma foldl_snoc_map {A B} (f : A → B) (l : list A) (acc : list B) :
  foldl (λ acc x, acc ++ [f x]) acc l = acc ++ map f l.
Proof.
  revert acc; induction l as [|x l IH]; intros acc; simpl.
  - by rewrite app_nil_r.
  - by rewrite IH, <- app_assoc.
Qed.

Lemma convert_tweets_to_markdown_map (tweets : list Tweet) :
  convert_tweets_to_markdown tweets = join (nl +:+ nl) (map tweet_markdown tweets).
Proof. unfold convert_tweets_to_markdown. by rewrite foldl_snoc_map. Qed.


(** ** File system *)

Lemma ancestors_or_self_self (p : path) : p ∈ ancestors_or_self p.
Proof.
  induction p as [|x p IH]; simpl.
  - apply list_elem_of_here.
  - apply list_elem_of_further, list_elem_of_fmap. eauto.
Qed.

Lemma ancestors_or_self_take (p : path) (n : nat) : take n p ∈ ancestors_or_self p.
Proof.
  revert n; induction p as [|x p IH]; intros [|n]; simpl;
    try apply list_elem_of_here.
  apply list_elem_of_further, list_elem_of_fmap. eauto.
Qed.

Lemma ancestors_or_self_prefix (p d : path) :
  d ∈ ancestors_or_self p → ∃ n, d = take n p.
Proof.
  revert d; induction p as [|x p IH]; intros d; simpl.
  - intros ->%list_elem_of_singleton. by exists O.
  - intros [->|Hd]%elem_of_cons; [by exists O|].
    apply list_elem_of_fmap in Hd as (d' & -> & Hd').
    destruct (IH d' Hd') as [n ->]. by exists (S n).
Qed.

Lemma parent_path_div (p : path) (name : string) : parent (path_div p name) = p.
Proof. apply removelast_last. Qed.

Lemma path_not_above_parent (p : path) : p ≠ [] → p ∉ ancestors_or_self (parent p).
Proof.
  intros Hp [n Hn]%ancestors_or_self_prefix.
  destruct (exists_last Hp) as (q & x & ->).
  unfold parent in Hn. rewrite removelast_last in Hn.
  apply (f_equal List.length) in Hn.
  rewrite List.length_app, length_take in Hn. simpl in Hn. lia.
Qed.

Lemma fs_mkdir_parents_clear (p : path) (f : FS) :
  (∀ n, files f !! take n p = None) →
  fs_mkdir_parents p f
  = inr {| dirs := list_to_set (ancestors_or_self p) ∪ dirs f; files := files f |}.
Proof.
  intros Hclear. unfold fs_mkdir_parents, is_file.
  assert (Hnone : ∀ d, d ∈ ancestors_or_self p →
                       bool_decide (is_Some (files f !! d)) = false).
  { intros d [n ->]%ancestors_or_self_prefix.
    apply bool_decide_eq_false_2. rewrite Hclear. by intros [x Hx]. }
  rewrite (Hnone p (ancestors_or_self_self p)).
  destruct (existsb _ _) eqn:Hex; [|reflexivity].
  apply existsb_exists in Hex as (d & Hd%list_elem_of_In & Hfile).
  by rewrite (Hnone d Hd) in Hfile.
Qed.

Lemma fs_mkdir_parents_inr (p : path) (f f' : FS) :
  fs_mkdir_parents p f = inr f' →
  f' = {| dirs := list_to_set (ancestors_or_self p) ∪ dirs f; files := files f |}.
Proof.
  unfold fs_mkdir_parents.
  destruct (is_file p f); [discriminate|].
  destruct (existsb _ _); [discriminate|]. by intros [= <-].
Qed.

Lemma fs_mkdir_parents_inl (p : path) (f : FS) (e : exn) :
  fs_mkdir_parents p f = inl e → ∃ n, is_Some (files f !! take n p).
Proof.
  unfold fs_mkdir_parents, is_file.
  destruct (bool_decide (is_Some (files f !! p))) eqn:Hp.
  - intros _. exists (List.length p). rewrite firstn_all.
    by apply bool_decide_eq_true_1 in Hp.
  - destruct (existsb _ _) eqn:Hex; [|discriminate]. intros _.
    apply existsb_exists in Hex as (d & Hd%list_elem_of_In & Hfile).
    apply ancestors_or_self_prefix in Hd as [n ->]. exists n.
    by apply bool_decide_eq_true_1 in Hfile.
Qed.

Lemma fs_write_inr (p : path) (data : string) (f f' : FS) :
  fs_write p data f = inr f' →
  f' = {| dirs := dirs f; files := <[p := data]> (files f) |}.
Proof.
  unfold fs_write.
  destruct (bool_decide (p ∈ dirs f)); [discriminate|].
  destruct (bool_decide (parent p ∈ dirs f)); [|discriminate]. by intros [= <-].
Qed.

Lemma fs_write_after_mkdir (p : path) (data : string) (f : FS) :
  p ≠ [] → p ∉ dirs f →
  fs_write p data
    {| dirs := list_to_set (ancestors_or_self (parent p)) ∪ dirs f; files := files f |}
  = inr {| dirs := list_to_set (ancestors_or_self (parent p)) ∪ dirs f;
           files := <[p := data]> (files f) |}.
Proof.
  intros Hp Hdir. unfold fs_write; simpl.
  rewrite bool_decide_eq_false_2.
  - rewrite bool_decide_eq_true_2; [reflexivity|].
    apply elem_of_union_l, elem_of_list_to_set, ancestors_or_self_self.
  - intros [Hin|Hin]%elem_of_union; [|done].
    apply elem_of_list_to_set in Hin. by apply path_not_above_parent in Hin.
Qed.

Lemma fs_exists_false (p : path) (f : FS) :
  fs_exists p f = false → (p ∉ dirs f) ∧ (files f !! p = None).
Proof.
  unfold fs_exists. intros [Hd Hf]%orb_false_elim.
  apply bool_decide_eq_false_1 in Hd, Hf. split; [done|].
  destruct (files f !! p) eqn:E; [|done]. destruct Hf. eauto.
Qed.

(** Saving the cookies where the application directory has not been made
    raises: the [mkdir] before [save_cookies] is what makes the save work. *)
Example save_cookies_needs_directory :
  (client_save_cookies (set_cookies (twikit_Client "en-US" None) fresh_blob)
     (COOKIES_PATH g0) (fresh_state (env_of "alice"))).1
  = inl (Exception "No such file or directory").
Proof. vm_compute. reflexivity. Qed.

(** ** Session acquisition, case by case *)

Ltac run := unfold mbind, mret, M_bind, M_ret, try_except, raise, call,
  logger_error, lift, with_local, get_local, set_local; simpl.

Ltac unfold_session := unfold get_twitter_client, new_client, path_exists,
  client_load_cookies, client_login, mkdir_parents, client_save_cookies.

Section Session.

Variable api : TwikitAPI.
Variable g : Globals.

Lemma session_from_artifact (s : State) (blob : string) :
  files (fs s) !! COOKIES_PATH g = Some blob →
  get_twitter_client api g s
  = (match api_json_error api blob with
     | None => inr (set_cookies (twikit_Client "en-US" (USER_AGENT g)) blob)
     | Some e => inl e
     end,
     add_call (CallLoadCookies (COOKIES_PATH g))
       (add_call (CallClient "en-US" (USER_AGENT g)) s)).
Proof.
  intros Hfile. unfold_session.
  run. unfold fs_exists, fs_read.
  rewrite (bool_decide_eq_true_2 (is_Some _)) by (rewrite Hfile; eauto).
  rewrite orb_true_r. simpl. rewrite Hfile.
  by destruct (api_json_error api blob).
Qed.

Lemma session_login_raises (s : State) (e : exn) :
  fs_exists (COOKIES_PATH g) (fs s) = false →
  api_login api (twikit_Client "en-US" (USER_AGENT g)) (USERNAME g) (EMAIL g) (PASSWORD g)
    = inl e →
  get_twitter_client api g s
  = (inl e,
     add_log ("Failed to login: " +:+ str e)
       (add_call (CallLogin (USERNAME g) (EMAIL g) (PASSWORD g))
          (add_call (CallClient "en-US" (USER_AGENT g)) s))).
Proof.
  intros Hno Hlogin. unfold_session.
  run. rewrite Hno. by rewrite Hlogin.
Qed.

(** The login branch, as far as the login: what follows depends on the
    file system alone. *)
Lemma session_login_then (s : State) (ck : Cookies) :
  fs_exists (COOKIES_PATH g) (fs s) = false →
  api_login api (twikit_Client "en-US" (USER_AGENT g)) (USERNAME g) (EMAIL g) (PASSWORD g)
    = inr ck →
  get_twitter_client api g s
  = match fs_mkdir_parents (parent (COOKIES_PATH g)) (fs s) with
    | inl e =>
        (inl e,
         add_call (CallMkdir (parent (COOKIES_PATH g)))
           (add_call (CallLogin (USERNAME g) (EMAIL g) (PASSWORD g))
              (add_call (CallClient "en-US" (USER_AGENT g)) s)))
    | inr f1 =>
        match fs_write (COOKIES_PATH g) ck f1 with
        | inl e =>
            (inl e,
             add_call (CallSaveCookies (COOKIES_PATH g))
               (set_fs f1
                  (add_call (CallMkdir (parent (COOKIES_PATH g)))
                     (add_call (CallLogin (USERNAME g) (EMAIL g) (PASSWORD g))
                        (add_call (CallClient "en-US" (USER_AGENT g)) s)))))
        | inr f2 =>
            (inr (set_cookies (twikit_Client "en-US" (USER_AGENT g)) ck),
             add_call (CallSaveCookies (COOKIES_PATH g))
               (set_fs f2
                  (add_call (CallMkdir (parent (COOKIES_PATH g)))
                     (add_call (CallLogin (USERNAME g) (EMAIL g) (PASSWORD g))
                        (add_call (CallClient "en-US" (USER_AGENT g)) s)))))
        end
    end.
Proof.
  intros Hno Hlogin. unfold_session.
  run. rewrite Hno. rewrite Hlogin. simpl.
  destruct (fs_mkdir_parents _ _) as [e|f1]; simpl; [reflexivity|].
  destruct (fs_write _ _ _) as [e|f2]; reflexivity.
Qed.

Lemma session_login_succeeds (s : State) (ck : Cookies) :
  fs_exists (COOKIES_PATH g) (fs s) = false →
  api_login api (twikit_Client "en-US" (USER_AGENT g)) (USERNAME g) (EMAIL g) (PASSWORD g)
    = inr ck →
  COOKIES_PATH g ≠ [] →
  (∀ n, files (fs s) !! take n (parent (COOKIES_PATH g)) = None) →
  get_twitter_client api g s
  = (inr (set_cookies (twikit_Client "en-US" (USER_AGENT g)) ck),
     add_call (CallSaveCookies (COOKIES_PATH g))
       (set_fs {| dirs := list_to_set (ancestors_or_self (parent (COOKIES_PATH g)))
                          ∪ dirs (fs s);
                  files := <[COOKIES_PATH g := ck]> (files (fs s)) |}
          (add_call (CallMkdir (parent (COOKIES_PATH g)))
             (add_call (CallLogin (USERNAME g) (EMAIL g) (PASSWORD g))
                (add_call (CallClient "en-US" (USER_AGENT g)) s))))).
Proof.
  intros Hno Hlogin Hpath Hclear.
  rewrite (session_login_then s ck Hno Hlogin).
  rewrite (fs_mkdir_parents_clear _ _ Hclear).
  rewrite fs_write_after_mkdir; [reflexivity | exact Hpath |].
  by apply fs_exists_false in Hno as [Hdir _].
Qed.

(** When the login branch returns a client, it logged in, made the
    directory and saved what the login produced. *)
Lemma session_login_returned (s s1 : State) (client : Client) :
  fs_exists (COOKIES_PATH g) (fs s) = false →
  get_twitter_client api g s = (inr client, s1) →
  ∃ ck,
    client = set_cookies (twikit_Client "en-US" (USER_AGENT g)) ck
    ∧ files (fs s1) !! COOKIES_PATH g = Some ck
    ∧ calls s1 = calls s ++ [CallClient "en-US" (USER_AGENT g);
                             CallLogin (USERNAME g) (EMAIL g) (PASSWORD g);
                             CallMkdir (parent (COOKIES_PATH g));
                             CallSaveCookies (COOKIES_PATH g)].
Proof.
  intros Hno.
  destruct (api_login api (twikit_Client "en-US" (USER_AGENT g)) (USERNAME g) (EMAIL g)
              (PASSWORD g)) as [e|ck] eqn:Hlogin.
  { rewrite (session_login_raises s e Hno Hlogin). intros [=]. }
  rewrite (session_login_then s ck Hno Hlogin).
  destruct (fs_mkdir_parents _ _) as [e|f1]; [intros [=]|].
  destruct (fs_write _ _ _) as [e|f2] eqn:Hwrite; [intros [=]|].
  apply fs_write_inr in Hwrite as ->.
  intros [= <- <-]. exists ck. split; [reflexivity|]. split.
  - cbn. apply lookup_insert_eq.
  - cbn. by rewrite <- !app_assoc.
Qed.

Lemma session_login_calls (s : State) (ck : Cookies) :
  fs_exists (COOKIES_PATH g) (fs s) = false →
  api_login api (twikit_Client "en-US" (USER_AGENT g)) (USERNAME g) (EMAIL g) (PASSWORD g)
    = inr ck →
  ∃ rest, calls (get_twitter_client api g s).2
          = calls s ++ CallClient "en-US" (USER_AGENT g)
                       :: CallLogin (USERNAME g) (EMAIL g) (PASSWORD g) :: rest.
Proof.
  intros Hno Hlogin. rewrite (session_login_then s ck Hno Hlogin).
  destruct (fs_mkdir_parents _ _) as [e|f1]; [|destruct (fs_write _ _ _) as [e|f2]];
    eexists; cbn; rewrite <- !app_assoc; reflexivity.
Qed.

End Session.

(** Session acquisition never looks at the environment the process has at
    the time of the call. *)
Lemma get_twitter_client_environ (api : TwikitAPI) (g : Globals) (s : State)
    (env : gmap string string) :
  get_twitter_client api g (set_environ env s)
  = ((get_twitter_client api g s).1, set_environ env (get_twitter_client api g s).2).
Proof.
  unfold_session.
  run.
  destruct (fs_exists _ _); simpl.
  - destruct (fs_read _ _); [reflexivity|]. destruct (api_json_error _ _); reflexivity.
  - destruct (api_login _ _ _ _ _); simpl; [reflexivity|].
    destruct (fs_mkdir_parents _ _); simpl; [reflexivity|].
    destruct (fs_write _ _ _); reflexivity.
Qed.

(** C2, as the code has it. Whenever the artifact file exists at the cookie
    path, session acquisition makes no [login] call: it constructs a new
    client and calls [load_cookies] on the path, and nothing else.  When the
    content of the file parses, the client holding the stored cookies is
    returned; when it does not, the error [load_cookies] raises leaves
    [get_twitter_client]. *)
Theorem artifact_present_skips_login (api : TwikitAPI) (g : Globals) (s : State)
    (blob : string) :
  files (fs s) !! COOKIES_PATH g = Some blob →
  (get_twitter_client api g s).1
    = match api_json_error api blob with
      | None => inr {| language := "en-US"; user_agent := USER_AGENT g;
                       cookies := Some blob |}
      | Some e => inl e
      end
  ∧ calls (get_twitter_client api g s).2
    = calls s ++ [CallClient "en-US" (USER_AGENT g); CallLoadCookies (COOKIES_PATH g)]
  ∧ List.filter is_login (calls (get_twitter_client api g s).2)
    = List.filter is_login (calls s).
Proof.
  intros Hfile. rewrite (session_from_artifact api g s blob Hfile). cbn [fst snd].
  split; [reflexivity|]. split.
  - cbn. by rewrite <- app_assoc.
  - cbn. rewrite <- app_assoc, List.filter_app. simpl. by rewrite app_nil_r.
Qed.

Lemma artifact_present_skips_login_witness :
  (get_twitter_client (stub_api (inr fresh_blob) (λ _, inr None)) g0
     (logged_in_state (env_of "alice") stored_blob)).1
    = inr {| language := "en-US"; user_agent := None; cookies := Some stored_blob |}
  ∧ List.filter is_login
      (calls (get_twitter_client (stub_api (inr fresh_blob) (λ _, inr None)) g0
                (logged_in_state (env_of "alice") stored_blob)).2) = [].
Proof.
  pose proof (artifact_present_skips_login (stub_api (inr fresh_blob) (λ _, inr None)) g0
                (logged_in_state (env_of "alice") stored_blob) stored_blob) as H.
  destruct H as (Hres & _ & Hlogin); [reflexivity|].
  split; [exact Hres | exact Hlogin].
Defined.

(** C2, as stated, fails: the artifact file exists but does not parse, and
    session acquisition raises instead of returning a client (still without
    a login call). *)
Lemma artifact_present_returns_client_cex :
  files (fs (corrupted_state (env_of "alice"))) !! COOKIES_PATH g0 = Some "not json"
  ∧ (get_twitter_client (stub_api (inr fresh_blob) (λ _, inr None)) g0
       (corrupted_state (env_of "alice"))).1
    = inl (Exception "Expecting value")
  ∧ calls (get_twitter_client (stub_api (inr fresh_blob) (λ _, inr None)) g0
             (corrupted_state (env_of "alice"))).2
    = [CallClient "en-US" None;
       CallLoadCookies ["home"; "u"; ".mcp-twikit"; "cookies.json"]].
Proof.
  split; [reflexivity|].
  split; vm_compute; reflexivity.
Qed.

(** C3, as the code has it. When nothing exists at the cookie path, the
    credential login succeeds, and no regular file sits where the artifact's
    parent directory or one of its ancestors has to be, then in the state in
    which the client is returned the artifact file exists at
    [home/.mcp-twikit/cookies.json] holding the new session, its parent
    directory and every prefix of that directory's path exist, no directory
    has been lost, and the directory was made before the file was saved. *)
Theorem fresh_login_persists_artifact (api : TwikitAPI) (env : gmap string string)
    (home : path) (s : State) (ck : Cookies) :
  fs_exists (COOKIES_PATH (module_init env home)) (fs s) = false →
  api_login api (twikit_Client "en-US" (getenv env "USER_AGENT"))
    (getenv env "TWITTER_USERNAME") (getenv env "TWITTER_EMAIL")
    (getenv env "TWITTER_PASSWORD") = inr ck →
  (∀ n, files (fs s) !! take n (home ++ [".mcp-twikit"]) = None) →
  (get_twitter_client api (module_init env home) s).1
    = inr {| language := "en-US"; user_agent := getenv env "USER_AGENT"; cookies := Some ck |}
  ∧ files (fs (get_twitter_client api (module_init env home) s).2)
      !! (home ++ [".mcp-twikit"; "cookies.json"]) = Some ck
  ∧ fs_exists (home ++ [".mcp-twikit"; "cookies.json"])
      (fs (get_twitter_client api (module_init env home) s).2) = true
  ∧ (∀ d, d ∈ ancestors_or_self (home ++ [".mcp-twikit"]) →
          d ∈ dirs (fs (get_twitter_client api (module_init env home) s).2))
  ∧ (∀ n, take n (home ++ [".mcp-twikit"])
          ∈ dirs (fs (get_twitter_client api (module_init env home) s).2))
  ∧ dirs (fs s) ⊆ dirs (fs (get_twitter_client api (module_init env home) s).2)
  ∧ calls (get_twitter_client api (module_init env home) s).2
    = calls s ++ [CallClient "en-US" (getenv env "USER_AGENT");
                  CallLogin (getenv env "TWITTER_USERNAME") (getenv env "TWITTER_EMAIL")
                            (getenv env "TWITTER_PASSWORD");
                  CallMkdir (home ++ [".mcp-twikit"]);
                  CallSaveCookies (home ++ [".mcp-twikit"; "cookies.json"])].
Proof.
  intros Hno Hlogin Hclear.
  assert (Hpath : COOKIES_PATH (module_init env home)
                  = home ++ [".mcp-twikit"; "cookies.json"]).
  { simpl. unfold path_div. by rewrite <- app_assoc. }
  assert (Hparent : parent (COOKIES_PATH (module_init env home)) = home ++ [".mcp-twikit"]).
  { simpl. by rewrite parent_path_div. }
  rewrite (session_login_succeeds api (module_init env home) s ck Hno Hlogin).
  2: { rewrite Hpath. by destruct home. }
  2: { by rewrite Hparent. }
  rewrite Hparent, Hpath. cbn [fst snd fs calls files dirs add_call set_fs].
  assert (Hfile : (<[home ++ [".mcp-twikit"; "cookies.json"] := ck]> (files (fs s))
                   : gmap path string)
                  !! (home ++ [".mcp-twikit"; "cookies.json"]) = Some ck)
    by apply lookup_insert_eq.
  repeat split.
  - exact Hfile.
  - unfold fs_exists; cbn [files dirs].
    apply orb_true_iff; right. apply bool_decide_eq_true_2.
    exists ck. exact Hfile.
  - intros d Hd. apply elem_of_union_l, elem_of_list_to_set, Hd.
  - intros n. apply elem_of_union_l, elem_of_list_to_set, ancestors_or_self_take.
  - apply union_subseteq_r.
  - by rewrite <- !app_assoc.
Qed.

Lemma fresh_login_persists_artifact_witness :
  files (fs (get_twitter_client (stub_api (inr fresh_blob) (λ _, inr None))
               (module_init (env_of "alice") home_dir)
               (fresh_state (env_of "alice"))).2)
    !! (home_dir ++ [".mcp-twikit"; "cookies.json"]) = Some fresh_blob.
Proof.
  pose proof (fresh_login_persists_artifact (stub_api (inr fresh_blob) (λ _, inr None))
                (env_of "alice") home_dir (fresh_state (env_of "alice")) fresh_blob) as H.
  destruct H as (_ & Hfile & _);
    [vm_compute; reflexivity | reflexivity | intros n; apply lookup_empty |].
  exact Hfile.
Defined.

(** C3, as stated, fails: nothing exists at the cookie path and the login
    succeeds, but a regular file sits where the application directory would
    go; [mkdir] raises after the login, no artifact is written and no client
    is returned. *)
Lemma fresh_login_blocked_cex :
  fs_exists (COOKIES_PATH g0) (fs (file_in_the_way_state (env_of "alice"))) = false
  ∧ api_login (stub_api (inr fresh_blob) (λ _, inr None))
      (twikit_Client "en-US" (USER_AGENT g0)) (USERNAME g0) (EMAIL g0) (PASSWORD g0)
    = inr fresh_blob
  ∧ (get_twitter_client (stub_api (inr fresh_blob) (λ _, inr None)) g0
       (file_in_the_way_state (env_of "alice"))).1
    = inl (Exception "File exists")
  ∧ fs_exists (home_dir ++ [".mcp-twikit"; "cookies.json"])
      (fs (get_twitter_client (stub_api (inr fresh_blob) (λ _, inr None)) g0
             (file_in_the_way_state (env_of "alice"))).2) = false
  ∧ calls (get_twitter_client (stub_api (inr fresh_blob) (λ _, inr None)) g0
             (file_in_the_way_state (env_of "alice"))).2
    = [CallClient "en-US" None;
       CallLogin (Some "alice") (Some "u@example.org") (Some "secret");
       CallMkdir ["home"; "u"; ".mcp-twikit"]].
Proof.
  split; [vm_compute; reflexivity|].
  split; [reflexivity|].
  repeat split; vm_compute; reflexivity.
Qed.

(** C9. Whenever the artifact file exists at the cookie path, session
    acquisition leaves the file system as it found it, contents of the
    artifact included, and makes neither a [mkdir] nor a [save_cookies]
    call. *)
Theorem artifact_present_no_write (api : TwikitAPI) (g : Globals) (s : State)
    (blob : string) :
  files (fs s) !! COOKIES_PATH g = Some blob →
  fs (get_twitter_client api g s).2 = fs s
  ∧ files (fs (get_twitter_client api g s).2) !! COOKIES_PATH g = Some blob
  ∧ List.filter is_fs_write (calls (get_twitter_client api g s).2)
    = List.filter is_fs_write (calls s).
Proof.
  intros Hfile. rewrite (session_from_artifact api g s blob Hfile). simpl.
  split; [reflexivity|]. split; [exact Hfile|].
  rewrite <- app_assoc, List.filter_app. simpl. by rewrite app_nil_r.
Qed.

Lemma artifact_present_no_write_witness :
  fs (get_twitter_client (stub_api (inr fresh_blob) (λ _, inr None)) g0
        (logged_in_state (env_of "alice") stored_blob)).2
  = fs (logged_in_state (env_of "alice") stored_blob).
Proof.
  pose proof (artifact_present_no_write (stub_api (inr fresh_blob) (λ _, inr None)) g0
                (logged_in_state (env_of "alice") stored_blob) stored_blob) as H.
  destruct H as (Hfs & _); [reflexivity|].
  exact Hfs.
Defined.

(** ** The tools *)

Ltac unfold_tools := unfold run_tool, run_try_block,
  search_twitter, search_twitter_try, get_user_tweets, get_user_tweets_try,
  get_timeline, get_timeline_try, get_latest_timeline, get_latest_timeline_try,
  create_tweet, create_tweet_try, reply_to_tweet, reply_to_tweet_try,
  like_tweet, like_tweet_try, retweet, retweet_try,
  follow_user, follow_user_try, unfollow_user, unfollow_user_try,
  block_user, block_user_try, unblock_user, unblock_user_try,
  get_user_by_screen_name, get_user_by_screen_name_try,
  get_user_followers, get_user_followers_try, get_user_followers_except,
  get_user_following, get_user_following_try, get_user_following_except,
  send_dm, send_dm_try, get_trends, get_trends_try,
  client_search_tweet, client_get_user_by_screen_name, client_get_user_tweets,
  client_get_timeline, client_get_latest_timeline, client_create_tweet,
  client_favorite_tweet, client_retweet, client_follow_user, client_unfollow_user,
  client_block_user, client_unblock_user, client_get_user_followers,
  client_get_user_following, client_send_dm, client_get_trends.

(** C1, as the code has it. When nothing exists at the cookie path and the
    login raises, [get_twitter_client] logs ["Failed to login: <detail>"] and
    re-raises; every tool makes that call inside its [try] block, so the
    tool catches the exception, logs a second line, and returns the text
    ["Failed to <action>: <detail>"] as a normal result. *)
Theorem login_failure_becomes_tool_text (api : TwikitAPI) (g : Globals) (t : ToolCall)
    (s : State) (e : exn) :
  fs_exists (COOKIES_PATH g) (fs s) = false →
  api_login api (twikit_Client "en-US" (USER_AGENT g)) (USERNAME g) (EMAIL g) (PASSWORD g)
    = inl e →
  get_twitter_client api g s
    = (inl e,
       add_log ("Failed to login: " +:+ str e)
         (add_call (CallLogin (USERNAME g) (EMAIL g) (PASSWORD g))
            (add_call (CallClient "en-US" (USER_AGENT g)) s)))
  ∧ run_tool api g t s
    = (inr ("Failed to " +:+ action_at_entry t +:+ ": " +:+ str e),
       add_log ("Failed to " +:+ action_at_entry t +:+ ": " +:+ str e)
         (add_log ("Failed to login: " +:+ str e)
            (add_call (CallLogin (USERNAME g) (EMAIL g) (PASSWORD g))
               (add_call (CallClient "en-US" (USER_AGENT g)) s)))).
Proof.
  intros Hno Hlogin.
  pose proof (session_login_raises api g s e Hno Hlogin) as Hs.
  split; [exact Hs|].
  destruct t; unfold_tools; run; rewrite Hs; reflexivity.
Qed.

Lemma login_failure_becomes_tool_text_witness :
  run_tool (stub_api (inl (Exception "boom")) (λ _, inr None)) g0
    (GetUserFollowers "@bob" 20) (fresh_state (env_of "alice"))
  = (inr "Failed to get followers for user @bob: boom",
     {| fs := fs (fresh_state (env_of "alice"));
        environ := env_of "alice";
        log := ["Failed to login: boom"; "Failed to get followers for user @bob: boom"];
        calls := [CallClient "en-US" None;
                  CallLogin (Some "alice") (Some "u@example.org") (Some "secret")] |}).
Proof.
  pose proof (login_failure_becomes_tool_text
                (stub_api (inl (Exception "boom")) (λ _, inr None)) g0
                (GetUserFollowers "@bob" 20) (fresh_state (env_of "alice"))
                (Exception "boom")) as H.
  destruct H as (_ & Htool); [vm_compute; reflexivity | reflexivity |].
  exact Htool.
Defined.

(** C1, as stated, fails: with no artifact and a login that raises, the
    search tool does not raise; it returns the failure text. *)
Lemma login_failure_propagates_cex :
  fs_exists (COOKIES_PATH g0) (fs (fresh_state (env_of "alice"))) = false
  ∧ api_login (stub_api (inl (Exception "boom")) (λ _, inr None))
      (twikit_Client "en-US" (USER_AGENT g0)) (USERNAME g0) (EMAIL g0) (PASSWORD g0)
    = inl (Exception "boom")
  ∧ (get_twitter_client (stub_api (inl (Exception "boom")) (λ _, inr None)) g0
       (fresh_state (env_of "alice"))).1 = inl (Exception "boom")
  ∧ (run_tool (stub_api (inl (Exception "boom")) (λ _, inr None)) g0
       (SearchTwitter "q" "Top" 10) (fresh_state (env_of "alice"))).1
    = inr "Failed to search tweets: boom"
  ∧ (run_tool (stub_api (inl (Exception "boom")) (λ _, inr None)) g0
       (SearchTwitter "q" "Top" 10) (fresh_state (env_of "alice"))).1
    ≠ inl (Exception "boom").
Proof.
  split; [vm_compute; reflexivity|].
  split; [reflexivity|].
  split; [vm_compute; reflexivity|].
  split; [vm_compute; reflexivity|].
  vm_compute. discriminate.
Qed.

Ltac destruct_matches :=
  repeat match goal with
         | |- context [match ?x with _ => _ end] =>
             lazymatch x with
             | context [match _ with _ => _ end] => fail
             | _ => destruct x eqn:?; simpl
             end
         end.



(** C5. [convert_tweets_to_markdown] renders each tweet as
    ["**@<screen_name>** - <created_at>"], a line feed, and the tweet's text,
    and joins the rendered tweets with two line feeds (a blank line); the two
    tweets of users a and b render as the five lines
    [**@a** - T1], [hi], an empty line, [**@b** - T2], [yo]. *)
Theorem convert_tweets_to_markdown_format :
  (∀ tweet : Tweet,
     tweet_markdown tweet
     = "**@" +:+ screen_name (tweet_user tweet) +:+ "** - " +:+ created_at tweet
       +:+ nl +:+ text tweet)
  ∧ convert_tweets_to_markdown [] = ""
  ∧ (∀ tweet : Tweet, convert_tweets_to_markdown [tweet] = tweet_markdown tweet)
  ∧ (∀ (tweet next : Tweet) (rest : list Tweet),
       convert_tweets_to_markdown (tweet :: next :: rest)
       = tweet_markdown tweet +:+ nl +:+ nl +:+ convert_tweets_to_markdown (next :: rest))
  ∧ (∀ (id1 id2 : string) (u1 u2 : User),
       screen_name u1 = "a" → screen_name u2 = "b" →
       convert_tweets_to_markdown
         [ {| tweet_id := id1; tweet_user := u1; created_at := "T1"; text := "hi" |};
           {| tweet_id := id2; tweet_user := u2; created_at := "T2"; text := "yo" |} ]
       = "**@a** - T1" +:+ nl +:+ "hi" +:+ nl +:+ nl +:+ "**@b** - T2" +:+ nl +:+ "yo").
Proof.
  split; [reflexivity|].
  split; [reflexivity|].
  split; [reflexivity|].
  split.
  - intros tweet next rest. rewrite !convert_tweets_to_markdown_map. reflexivity.
  - intros id1 id2 u1 u2 H1 H2.
    unfold convert_tweets_to_markdown, tweet_markdown; simpl.
    rewrite H1, H2. reflexivity.
Qed.

(** C6, as the code has it. When the session is acquired and the lookup of
    the name (leading at signs removed) yields no user, the
    [get_user_by_screen_name] tool returns exactly
    ["Could not find user with screen name <name>"], and the lookup is the
    last call it makes: nothing else is called and nothing is logged. *)
Theorem unresolved_screen_name_text (api : TwikitAPI) (g : Globals) (username : string)
    (s s1 : State) (client : Client) :
  get_twitter_client api g s = (inr client, s1) →
  api_get_user_by_screen_name api client (lstrip "@" username) = inr None →
  get_user_by_screen_name api g username s
  = (inr ("Could not find user with screen name " +:+ lstrip "@" username),
     {| fs := fs s1; environ := environ s1; log := log s1;
        calls := calls s1 ++ [CallGetUserByScreenName (lstrip "@" username)] |}).
Proof.
  intros Hs Hnone. unfold_tools; run. rewrite Hs, Hnone. reflexivity.
Qed.

Lemma unresolved_screen_name_text_witness :
  get_user_by_screen_name (stub_api (inr fresh_blob) (λ _, inr None)) g0 "@ghost"
    (logged_in_state (env_of "alice") stored_blob)
  = (inr "Could not find user with screen name ghost",
     {| fs := fs (logged_in_state (env_of "alice") stored_blob);
        environ := env_of "alice"; log := [];
        calls := [CallClient "en-US" None;
                  CallLoadCookies ["home"; "u"; ".mcp-twikit"; "cookies.json"];
                  CallGetUserByScreenName "ghost"] |}).
Proof.
  exact (unresolved_screen_name_text (stub_api (inr fresh_blob) (λ _, inr None)) g0 "@ghost"
           (logged_in_state (env_of "alice") stored_blob) _ _ eq_refl eq_refl).
Defined.

(** C6, as stated, fails: for the unresolvable name ghost the tool's text is
    not ["Could not find user ghost"]. *)
Lemma unresolved_screen_name_cex :
  api_get_user_by_screen_name (stub_api (inr fresh_blob) (λ _, inr None))
    {| language := "en-US"; user_agent := None; cookies := Some stored_blob |} "ghost"
  = inr None
  ∧ (get_user_by_screen_name (stub_api (inr fresh_blob) (λ _, inr None)) g0 "ghost"
       (logged_in_state (env_of "alice") stored_blob)).1
    = inr "Could not find user with screen name ghost"
  ∧ (get_user_by_screen_name (stub_api (inr fresh_blob) (λ _, inr None)) g0 "ghost"
       (logged_in_state (env_of "alice") stored_blob)).1
    ≠ inr "Could not find user ghost".
Proof.
  split; [reflexivity|].
  split; [vm_compute; reflexivity|].
  vm_compute. discriminate.
Qed.

(** C7. For each of the eight tools that take a user name and every name,
    passing the name with an at sign in front makes the same calls, with the
    same arguments, as passing the name itself: the screen-name lookups are
    the same, the file system ends up the same, and once the session has been
    acquired the whole outcome is the same.  In both runs the call that
    follows session acquisition is the screen-name lookup of the stripped
    name, which is the name without its run of leading at signs. *)
Theorem at_prefix_same_resolution (api : TwikitAPI) (g : Globals) (u : UserTool)
    (name : string) (s : State) :
  lstrip "@" (String "@" name) = lstrip "@" name
  ∧ calls (run_tool api g (user_tool_call u (String "@" name)) s).2
    = calls (run_tool api g (user_tool_call u name) s).2
  ∧ lookup_args (calls (run_tool api g (user_tool_call u (String "@" name)) s).2)
    = lookup_args (calls (run_tool api g (user_tool_call u name) s).2)
  ∧ fs (run_tool api g (user_tool_call u (String "@" name)) s).2
    = fs (run_tool api g (user_tool_call u name) s).2
  ∧ (∀ client s1, get_twitter_client api g s = (inr client, s1) →
       run_tool api g (user_tool_call u (String "@" name)) s
       = run_tool api g (user_tool_call u name) s)
  ∧ (∀ client s1, get_twitter_client api g s = (inr client, s1) →
       ∃ rest,
         calls (run_tool api g (user_tool_call u (String "@" name)) s).2
         = calls s1 ++ CallGetUserByScreenName (lstrip "@" name) :: rest
         ∧ calls (run_tool api g (user_tool_call u name) s).2
           = calls s1 ++ CallGetUserByScreenName (lstrip "@" name) :: rest)
  ∧ (∃ k, name = ats k +:+ lstrip "@" name)
  ∧ startswith (lstrip "@" name) "@" = false.
Proof.
  split; [reflexivity|].
  assert (Hcalls : calls (run_tool api g (user_tool_call u (String "@" name)) s).2
                   = calls (run_tool api g (user_tool_call u name) s).2).
  { destruct u; try reflexivity;
      unfold_tools; run;
      destruct (get_twitter_client api g s) as [[e|client] s1]; reflexivity. }
  split; [exact Hcalls|]. split; [by rewrite Hcalls|]. split.
  { destruct u; try reflexivity;
      unfold_tools; run;
      destruct (get_twitter_client api g s) as [[e|client] s1]; reflexivity. }
  split.
  { intros client s1 Hs.
    destruct u; try reflexivity; unfold_tools; run; rewrite Hs; reflexivity. }
  split; [|split; [apply lstrip_at_run | apply lstrip_at_head]].
  intros client s1 Hs. rewrite Hcalls.
  destruct u; unfold_tools; run; rewrite Hs; simpl;
    destruct_matches; eexists; rewrite <- ?app_assoc; split; reflexivity.
Qed.

(** C10. For each of the eight tools that take a user name, every name that
    does not begin with an at sign and every number [k] of at signs put in
    front of it: all of them are removed, the calls made are those made for
    the bare name, and once the session has been acquired the next call is
    the screen-name lookup of the bare name. *)
Theorem every_leading_at_removed (api : TwikitAPI) (g : Globals) (u : UserTool)
    (k : nat) (name : string) (s : State) :
  startswith name "@" = false →
  lstrip "@" (ats k +:+ name) = name
  ∧ calls (run_tool api g (user_tool_call u (ats k +:+ name)) s).2
    = calls (run_tool api g (user_tool_call u name) s).2
  ∧ (∀ client s1, get_twitter_client api g s = (inr client, s1) →
       ∃ rest, calls (run_tool api g (user_tool_call u (ats k +:+ name)) s).2
               = calls s1 ++ CallGetUserByScreenName name :: rest).
Proof.
  intros Hname.
  assert (Hstrip : lstrip "@" (ats k +:+ name) = name)
    by (rewrite lstrip_ats; by apply lstrip_no_at).
  assert (Hbare : lstrip "@" name = name) by (by apply lstrip_no_at).
  split; [exact Hstrip|]. split.
  - destruct u; unfold_tools; run;
      destruct (get_twitter_client api g s) as [[e|client] s1]; simpl;
      rewrite ?Hstrip, ?Hbare; reflexivity.
  - intros client s1 Hs.
    destruct u; unfold_tools; run; rewrite Hs; simpl; rewrite Hstrip;
      destruct_matches; eexists; rewrite <- ?app_assoc; reflexivity.
Qed.

Lemma every_leading_at_removed_witness :
  lstrip "@" "@@alice" = "alice"
  ∧ calls (run_tool (stub_api (inr fresh_blob) (λ _, inr None)) g0
             (GetUserByScreenName "@@alice") (logged_in_state (env_of "alice") stored_blob)).2
    = calls (run_tool (stub_api (inr fresh_blob) (λ _, inr None)) g0
               (GetUserByScreenName "alice") (logged_in_state (env_of "alice") stored_blob)).2.
Proof.
  pose proof (every_leading_at_removed (stub_api (inr fresh_blob) (λ _, inr None)) g0
                UTGetUserByScreenName 2 "alice"
                (logged_in_state (env_of "alice") stored_blob)) as H.
  destruct H as (Hstrip & Hcalls & _); [reflexivity|].
  split; [exact Hstrip | exact Hcalls].
Defined.

(** C8, as the code has it. The three credentials and the user agent are
    read from the environment once, when the module is imported, and kept in
    module-level names.  A session created later, in a process whose
    environment has since become [env_now], constructs the client and logs in
    with the values of the import-time environment [env_import], and what
    session acquisition does is the same whatever [env_now] is. *)
Theorem credentials_fixed_at_import (api : TwikitAPI) (env_import env_now : gmap string string)
    (home : path) (s : State) :
  fs_exists (COOKIES_PATH (module_init env_import home)) (fs s) = false →
  (∃ rest,
     calls (get_twitter_client api (module_init env_import home) (set_environ env_now s)).2
     = calls s ++ CallClient "en-US" (getenv env_import "USER_AGENT")
                  :: CallLogin (getenv env_import "TWITTER_USERNAME")
                               (getenv env_import "TWITTER_EMAIL")
                               (getenv env_import "TWITTER_PASSWORD")
                  :: rest)
  ∧ get_twitter_client api (module_init env_import home) (set_environ env_now s)
    = ((get_twitter_client api (module_init env_import home) s).1,
       set_environ env_now (get_twitter_client api (module_init env_import home) s).2).
Proof.
  intros Hno. split; [|apply get_twitter_client_environ].
  rewrite get_twitter_client_environ. cbn [snd].
  destruct (api_login api (twikit_Client "en-US" (USER_AGENT (module_init env_import home)))
              (USERNAME (module_init env_import home)) (EMAIL (module_init env_import home))
              (PASSWORD (module_init env_import home))) as [e|ck] eqn:Hlogin.
  - rewrite (session_login_raises api _ s e Hno Hlogin).
    exists []. cbn. by rewrite <- app_assoc.
  - exact (session_login_calls api _ s ck Hno Hlogin).
Qed.

Lemma credentials_fixed_at_import_witness :
  calls (get_twitter_client (stub_api (inl (Exception "boom")) (λ _, inr None))
           (module_init (env_of "alice") home_dir)
           (set_environ (env_of "bob") (fresh_state (env_of "alice")))).2
  = [CallClient "en-US" None;
     CallLogin (Some "alice") (Some "u@example.org") (Some "secret")].
Proof.
  pose proof (credentials_fixed_at_import (stub_api (inl (Exception "boom")) (λ _, inr None))
                (env_of "alice") (env_of "bob") home_dir (fresh_state (env_of "alice"))) as H.
  destruct H as (_ & Hsame); [vm_compute; reflexivity|].
  rewrite Hsame. vm_compute. reflexivity.
Defined.

(** C8, as stated, fails: the module was imported while the user name in
    the environment was alice; by the time the session is created the
    environment says bob, and the login is made as alice. *)
Lemma credentials_read_at_session_creation_cex :
  getenv (environ (fresh_state (env_of "bob"))) "TWITTER_USERNAME" = Some "bob"
  ∧ calls (get_twitter_client (stub_api (inr fresh_blob) (λ _, inr None))
             (module_init (env_of "alice") home_dir) (fresh_state (env_of "bob"))).2
    = [CallClient "en-US" None;
       CallLogin (Some "alice") (Some "u@example.org") (Some "secret");
       CallMkdir ["home"; "u"; ".mcp-twikit"];
       CallSaveCookies ["home"; "u"; ".mcp-twikit"; "cookies.json"]]
  ∧ CallLogin (getenv (environ (fresh_state (env_of "bob"))) "TWITTER_USERNAME")
              (getenv (environ (fresh_state (env_of "bob"))) "TWITTER_EMAIL")
              (getenv (environ (fresh_state (env_of "bob"))) "TWITTER_PASSWORD")
    ∉ calls (get_twitter_client (stub_api (inr fresh_blob) (λ _, inr None))
               (module_init (env_of "alice") home_dir) (fresh_state (env_of "bob"))).2.
Proof.
  split; [reflexivity|].
  assert (Hcalls : calls (get_twitter_client (stub_api (inr fresh_blob) (λ _, inr None))
             (module_init (env_of "alice") home_dir) (fresh_state (env_of "bob"))).2
    = [CallClient "en-US" None;
       CallLogin (Some "alice") (Some "u@example.org") (Some "secret");
       CallMkdir ["home"; "u"; ".mcp-twikit"];
       CallSaveCookies ["home"; "u"; ".mcp-twikit"; "cookies.json"]])
    by (vm_compute; reflexivity).
  split; [exact Hcalls|].
  rewrite Hcalls. intros Hin.
  rewrite !elem_of_cons, elem_of_nil in Hin.
  destruct Hin as [H|[H|[H|[H|[]]]]]; vm_compute in H; discriminate H.
Qed.

(** * Further properties of the code *)

(** ** [lstrip] and the rendering of tweets *)

Lemma lstrip_head_not_in (chars s : string) :
  match lstrip chars s with
  | "" => True
  | String c _ => char_in c chars = false
  end.
Proof.
  induction s as [|c s IH]; simpl; [exact I|].
  destruct (char_in c chars) eqn:Hc; [exact IH | exact Hc].
Qed.

(** X1. [lstrip] splits a name into its run of leading at signs and the rest:
    the rest does not begin with an at sign, stripping it again changes
    nothing, and at signs inside the name are kept. *)
Theorem lstrip_at_decompose (s : string) :
  (∃ k, s = ats k +:+ lstrip "@" s)
  ∧ startswith (lstrip "@" s) "@" = false
  ∧ lstrip "@" (lstrip "@" s) = lstrip "@" s.
Proof.
  assert (Hhead : startswith (lstrip "@" s) "@" = false).
  { pose proof (lstrip_head_not_in "@" s) as H.
    destruct (lstrip "@" s) as [|c r]; [reflexivity|].
    unfold startswith.
    change (String.prefix "@" (String c r))
      with (if ascii_dec "@"%char c then String.prefix "" r else false).
    destruct (ascii_dec "@"%char c) as [<-|_]; [discriminate H | reflexivity]. }
  split; [|split; [exact Hhead | by apply lstrip_no_at]].
  clear Hhead. induction s as [|c s IH]; [by exists O|].
  simpl. destruct (Ascii.eqb_spec c "@"%char) as [->|Hne].
  - destruct IH as [k Hk]. exists (S k). exact (f_equal (String "@") Hk).
  - by exists O.
Qed.

Lemma string_append_assoc (a b c : string) : (a +:+ b) +:+ c = a +:+ (b +:+ c).
Proof. induction a as [|x a IH]; [reflexivity | exact (f_equal (String x) IH)]. Qed.

Lemma join_app (sep : string) (xs ys : list string) :
  xs ≠ [] → ys ≠ [] → join sep (xs ++ ys) = join sep xs +:+ sep +:+ join sep ys.
Proof.
  intros Hxs Hys. induction xs as [|x [|x' xs'] IH]; [contradiction| |].
  - simpl. destruct ys; [contradiction|reflexivity].
  - change (join sep ((x :: x' :: xs') ++ ys))
      with (x +:+ sep +:+ join sep ((x' :: xs') ++ ys)).
    rewrite IH by discriminate.
    change (join sep (x :: x' :: xs')) with (x +:+ sep +:+ join sep (x' :: xs')).
    generalize (join sep (x' :: xs')) (join sep ys). intros a b.
    rewrite !string_append_assoc. reflexivity.
Qed.

(** X2. The text for two batches of tweets put one after the other is the
    text of the first, a blank line, and the text of the second. *)
Theorem convert_tweets_to_markdown_app (first second : list Tweet) :
  first ≠ [] → second ≠ [] →
  convert_tweets_to_markdown (first ++ second)
  = convert_tweets_to_markdown first +:+ nl +:+ nl +:+ convert_tweets_to_markdown second.
Proof.
  intros Hf Hs. rewrite !convert_tweets_to_markdown_map, map_app.
  rewrite join_app.
  - generalize (join (nl +:+ nl) (map tweet_markdown first)).
    generalize (join (nl +:+ nl) (map tweet_markdown second)).
    intros a b. rewrite !string_append_assoc. reflexivity.
  - by destruct first.
  - by destruct second.
Qed.

Lemma convert_tweets_to_markdown_app_witness :
  convert_tweets_to_markdown ([tweet_of "a" "T1" "hi"] ++ [tweet_of "b" "T2" "yo"])
  = convert_tweets_to_markdown [tweet_of "a" "T1" "hi"] +:+ nl +:+ nl
    +:+ convert_tweets_to_markdown [tweet_of "b" "T2" "yo"].
Proof.
  apply (convert_tweets_to_markdown_app [tweet_of "a" "T1" "hi"] [tweet_of "b" "T2" "yo"]);
    discriminate.
Defined.

(** X3. The rendered text is empty exactly when there are no tweets. *)
Theorem convert_tweets_to_markdown_empty (tweets : list Tweet) :
  convert_tweets_to_markdown tweets = "" ↔ tweets = [].
Proof.
  split; [|intros ->; reflexivity].
  rewrite convert_tweets_to_markdown_map.
  destruct tweets as [|t [|t' ts]]; [reflexivity | discriminate | discriminate].
Qed.

(** ** Session acquisition *)

Lemma session_returned_artifact (api : TwikitAPI) (g : Globals) (s s1 : State)
    (client : Client) :
  get_twitter_client api g s = (inr client, s1) →
  ∃ ck, client = set_cookies (twikit_Client "en-US" (USER_AGENT g)) ck
        ∧ files (fs s1) !! COOKIES_PATH g = Some ck.
Proof.
  destruct (fs_exists (COOKIES_PATH g) (fs s)) eqn:Hex.
  - destruct (files (fs s) !! COOKIES_PATH g) as [blob|] eqn:Hfile.
    + rewrite (session_from_artifact api g s blob Hfile).
      destruct (api_json_error api blob); [intros [=]|].
      intros [= <- <-]. exists blob. split; [reflexivity | exact Hfile].
    + unfold_session. run. rewrite Hex. unfold fs_read. simpl. rewrite Hfile.
      intros [=].
  - intros Hs. destruct (session_login_returned api g s s1 client Hex Hs)
      as (ck & -> & Hfile & _). eauto.
Qed.

(** X4. Save and load round trip.  After an acquisition that returned a
    client, and provided the cookies that client holds parse when read back
    from a file, the next acquisition returns an equal client (same language,
    user agent and cookies), makes no login call, only constructs a client
    and loads the cookies, and leaves the file system alone. *)
Theorem session_round_trip (api : TwikitAPI) (g : Globals) (s s1 : State)
    (client : Client) :
  get_twitter_client api g s = (inr client, s1) →
  (∀ ck, cookies client = Some ck → api_json_error api ck = None) →
  (get_twitter_client api g s1).1 = inr client
  ∧ calls (get_twitter_client api g s1).2
    = calls s1 ++ [CallClient "en-US" (USER_AGENT g); CallLoadCookies (COOKIES_PATH g)]
  ∧ fs (get_twitter_client api g s1).2 = fs s1.
Proof.
  intros Hs Hparse.
  destruct (session_returned_artifact api g s s1 client Hs) as (ck & -> & Hfile).
  rewrite (session_from_artifact api g s1 ck Hfile).
  rewrite (Hparse ck eq_refl). cbn [fst snd].
  split; [reflexivity|]. split; [|reflexivity].
  cbn. by rewrite <- !app_assoc.
Qed.

Lemma session_round_trip_witness :
  (get_twitter_client (stub_api (inr fresh_blob) (λ _, inr None)) g0
     (get_twitter_client (stub_api (inr fresh_blob) (λ _, inr None)) g0
        (fresh_state (env_of "alice"))).2).1
  = inr {| language := "en-US"; user_agent := None; cookies := Some fresh_blob |}.
Proof.
  pose proof (session_round_trip (stub_api (inr fresh_blob) (λ _, inr None)) g0
                (fresh_state (env_of "alice"))
                (get_twitter_client (stub_api (inr fresh_blob) (λ _, inr None)) g0
                   (fresh_state (env_of "alice"))).2
                {| language := "en-US"; user_agent := None; cookies := Some fresh_blob |})
    as H.
  destruct H as (Hres & _);
    [vm_compute; reflexivity | intros ck [= <-]; reflexivity |].
  exact Hres.
Defined.

(** X5. Whatever its outcome, session acquisition touches no file other than
    the artifact, removes no directory, and the only directories it can add
    are the artifact's parent and that directory's ancestors. *)
Theorem session_touches_only_artifact (api : TwikitAPI) (g : Globals) (s : State) :
  (∀ p, p ≠ COOKIES_PATH g →
        files (fs (get_twitter_client api g s).2) !! p = files (fs s) !! p)
  ∧ dirs (fs s) ⊆ dirs (fs (get_twitter_client api g s).2)
  ∧ (∀ d, d ∈ dirs (fs (get_twitter_client api g s).2) →
          d ∈ dirs (fs s) ∨ d ∈ ancestors_or_self (parent (COOKIES_PATH g))).
Proof.
  assert (Hgrown : ∀ d : path,
            d ∈ list_to_set (C := gset path) (ancestors_or_self (parent (COOKIES_PATH g)))
                ∪ dirs (fs s) →
            d ∈ dirs (fs s) ∨ d ∈ ancestors_or_self (parent (COOKIES_PATH g))).
  { intros d [Hd|Hd]%elem_of_union; [right|left; done].
    by apply elem_of_list_to_set in Hd. }
  unfold_session.
  run.
  destruct (fs_exists _ _); simpl.
  { destruct (fs_read _ _) as [e|data]; simpl;
      [|destruct (api_json_error api data); simpl];
      (split; [done|]); (split; [done|]); auto. }
  destruct (api_login _ _ _ _ _); simpl.
  { (split; [done|]); (split; [done|]); auto. }
  destruct (fs_mkdir_parents _ _) as [e|f1] eqn:Hmk; simpl.
  { (split; [done|]); (split; [done|]); auto. }
  apply fs_mkdir_parents_inr in Hmk as ->.
  destruct (fs_write _ _ _) as [e|f2] eqn:Hw; simpl.
  { split; [done|]. split; [apply union_subseteq_r | exact Hgrown]. }
  apply fs_write_inr in Hw as ->. simpl. split; [|split].
  - intros p Hp. by apply lookup_insert_ne.
  - apply union_subseteq_r.
  - exact Hgrown.
Qed.

(** X6. Whenever something exists at the cookie path, a regular file or
    not, session acquisition makes no login call, writes nothing, logs
    nothing, and calls only the client's construction and [load_cookies]; it
    returns a client exactly when a regular file is there and its content
    parses. *)
Theorem session_when_path_exists (api : TwikitAPI) (g : Globals) (s : State) :
  fs_exists (COOKIES_PATH g) (fs s) = true →
  calls (get_twitter_client api g s).2
    = calls s ++ [CallClient "en-US" (USER_AGENT g); CallLoadCookies (COOKIES_PATH g)]
  ∧ fs (get_twitter_client api g s).2 = fs s
  ∧ log (get_twitter_client api g s).2 = log s
  ∧ ((∃ client, (get_twitter_client api g s).1 = inr client)
     ↔ ∃ blob, files (fs s) !! COOKIES_PATH g = Some blob
               ∧ api_json_error api blob = None).
Proof.
  intros Hex.
  destruct (files (fs s) !! COOKIES_PATH g) as [blob|] eqn:Hfile.
  - rewrite (session_from_artifact api g s blob Hfile). cbn [fst snd].
    split; [cbn; by rewrite <- app_assoc|]. split; [reflexivity|].
    split; [reflexivity|].
    destruct (api_json_error api blob) as [e|] eqn:Hparse.
    + split; [intros [client Hc]; discriminate|].
      intros (blob' & [= <-] & Hok). congruence.
    + split; eauto.
  - unfold_session. run. rewrite Hex. unfold fs_read. simpl. rewrite Hfile. simpl.
    split; [by rewrite <- app_assoc|]. split; [reflexivity|]. split; [reflexivity|].
    split; [intros [client Hc]; discriminate | intros (blob & [=] & _)].
Qed.

Lemma session_when_path_exists_witness :
  calls (get_twitter_client (stub_api (inr fresh_blob) (λ _, inr None)) g0
           (directory_at_cookie_path_state (env_of "alice"))).2
  = [CallClient "en-US" None;
     CallLoadCookies ["home"; "u"; ".mcp-twikit"; "cookies.json"]]
  ∧ fs (get_twitter_client (stub_api (inr fresh_blob) (λ _, inr None)) g0
          (directory_at_cookie_path_state (env_of "alice"))).2
    = fs (directory_at_cookie_path_state (env_of "alice")).
Proof.
  pose proof (session_when_path_exists (stub_api (inr fresh_blob) (λ _, inr None)) g0
                (directory_at_cookie_path_state (env_of "alice"))) as H.
  destruct H as (Hcalls & Hfs & _); [vm_compute; reflexivity|].
  split; [exact Hcalls | exact Hfs].
Defined.

(** X17. Every client that session acquisition returns is the English
    client with the configured user agent, and its cookies are exactly what
    the artifact file holds when it is returned. *)
Theorem session_client_matches_artifact (api : TwikitAPI) (g : Globals) (s s1 : State)
    (client : Client) :
  get_twitter_client api g s = (inr client, s1) →
  language client = "en-US"
  ∧ user_agent client = USER_AGENT g
  ∧ is_Some (cookies client)
  ∧ files (fs s1) !! COOKIES_PATH g = cookies client.
Proof.
  intros Hs.
  destruct (session_returned_artifact api g s s1 client Hs) as (ck & -> & Hfile).
  simpl. repeat split; eauto.
Qed.

Lemma session_client_matches_artifact_witness :
  files (fs (get_twitter_client (stub_api (inr fresh_blob) (λ _, inr None)) g0
               (fresh_state (env_of "alice"))).2) !! COOKIES_PATH g0
  = cookies {| language := "en-US"; user_agent := None; cookies := Some fresh_blob |}.
Proof.
  pose proof (session_client_matches_artifact (stub_api (inr fresh_blob) (λ _, inr None)) g0
                (fresh_state (env_of "alice"))
                (get_twitter_client (stub_api (inr fresh_blob) (λ _, inr None)) g0
                   (fresh_state (env_of "alice"))).2
                {| language := "en-US"; user_agent := None; cookies := Some fresh_blob |}) as H.
  destruct H as (_ & _ & _ & Hfile); [vm_compute; reflexivity|].
  exact Hfile.
Defined.

(** ** Every tool *)

Lemma session_success_log (api : TwikitAPI) (g : Globals) (s s1 : State) (client : Client) :
  get_twitter_client api g s = (inr client, s1) → log s1 = log s.
Proof.
  unfold_session.
  run.
  destruct (fs_exists _ _); simpl.
  - destruct (fs_read _ _) as [e|data]; [intros [=]|].
    destruct (api_json_error api data); intros [= _ <-]; reflexivity.
  - destruct (api_login _ _ _ _ _); simpl; [intros [=]|].
    destruct (fs_mkdir_parents _ _); simpl; [intros [=]|].
    destruct (fs_write _ _ _); intros [= _ <-]; reflexivity.
Qed.

Lemma run_tool_fs (api : TwikitAPI) (g : Globals) (t : ToolCall) (s : State) :
  fs (run_tool api g t s).2 = fs (get_twitter_client api g s).2.
Proof.
  destruct t; unfold_tools; run;
    destruct (get_twitter_client api g s) as [[e|client] s1]; simpl;
    destruct_matches; reflexivity.
Qed.

(** X7. A tool does no file-system work of its own and never changes the
    environment: after any invocation the file system is the one session
    acquisition left, and the environment is the one it started with. *)
Theorem tool_fs_is_session_fs (api : TwikitAPI) (g : Globals) (t : ToolCall) (s : State) :
  fs (run_tool api g t s).2 = fs (get_twitter_client api g s).2
  ∧ environ (run_tool api g t s).2 = environ (get_twitter_client api g s).2
  ∧ environ (get_twitter_client api g s).2 = environ s.
Proof.
  split; [apply run_tool_fs|split].
  - destruct t; unfold_tools; run;
      destruct (get_twitter_client api g s) as [[e|client] s1]; simpl;
      destruct_matches; reflexivity.
  - unfold get_twitter_client, new_client, path_exists, client_load_cookies, client_login,
      mkdir_parents, client_save_cookies.
    run. destruct_matches; reflexivity.
Qed.

Ltac close_trace :=
  first [ exists []; split; [symmetry; apply app_nil_r|]
        | eexists; split; [rewrite <- ?app_assoc; reflexivity|] ].

Lemma run_tool_calls (api : TwikitAPI) (g : Globals) (t : ToolCall) (s : State) :
  ∃ made : list Call,
    calls (run_tool api g t s).2 = calls (get_twitter_client api g s).2 ++ made
    ∧ forallb is_network made = true
    ∧ match (get_twitter_client api g s).1 with
      | inl _ => made = []
      | inr _ => (1 ≤ List.length made ≤ 2)%nat
      end.
Proof.
  destruct t; unfold_tools; run;
    destruct (get_twitter_client api g s) as [[e|client] s1]; simpl;
    destruct_matches; close_trace;
    (split; [reflexivity|]); first [reflexivity | simpl; lia].
Qed.

(** X8. Beyond what session acquisition calls, a tool makes only network
    calls: none when the session could not be acquired, otherwise at least
    one and at most two. *)
Theorem tool_trace_shape (api : TwikitAPI) (g : Globals) (t : ToolCall) (s : State) :
  ∃ made : list Call,
    calls (run_tool api g t s).2 = calls (get_twitter_client api g s).2 ++ made
    ∧ forallb is_network made = true
    ∧ match (get_twitter_client api g s).1 with
      | inl _ => made = []
      | inr _ => (1 ≤ List.length made ≤ 2)%nat
      end.
Proof. apply run_tool_calls. Qed.

(** X9. A tool whose [try] block runs to its end logs nothing at all; a
    tool whose [try] block raises logs, as its last line, exactly the text it
    returns. *)
Theorem tool_log_discipline (api : TwikitAPI) (g : Globals) (t : ToolCall) (s : State) :
  ∃ out : string,
    (run_tool api g t s).1 = inr out
    ∧ match (run_try_block api g t s).1 with
      | inl _ => last (log (run_tool api g t s).2) = Some out
      | inr _ => log (run_tool api g t s).2 = log s
      end.
Proof.
  destruct (get_twitter_client api g s) as [[e|client] s1] eqn:Hs;
    [|pose proof (session_success_log api g s s1 client Hs) as Hlog];
    destruct t; unfold_tools; run; rewrite Hs; simpl;
    destruct_matches; eexists; (split; [reflexivity|]);
    first [ apply last_snoc | exact Hlog ].
Qed.

(** ** The tools that take a user name *)

(** X10. For each of the eight user-name tools: when the session is acquired
    and the lookup yields no user, the tool returns its not-found text with
    the stripped name, the lookup is the only network call (no tweets are
    fetched, nobody is followed or blocked), and nothing is logged. *)
Theorem unresolved_user_no_action (api : TwikitAPI) (g : Globals) (u : UserTool)
    (name : string) (s s1 : State) (client : Client) :
  get_twitter_client api g s = (inr client, s1) →
  api_get_user_by_screen_name api client (lstrip "@" name) = inr None →
  run_tool api g (user_tool_call u name) s
  = (inr (not_found_text u (lstrip "@" name)),
     add_call (CallGetUserByScreenName (lstrip "@" name)) s1).
Proof.
  intros Hs Hnone.
  destruct u; unfold_tools; run; rewrite Hs; simpl; rewrite Hnone; reflexivity.
Qed.

Lemma unresolved_user_no_action_witness :
  run_tool (stub_api (inr fresh_blob) (λ _, inr None)) g0 (BlockUser "@ghost")
    (logged_in_state (env_of "alice") stored_blob)
  = (inr "Could not find user ghost",
     {| fs := fs (logged_in_state (env_of "alice") stored_blob);
        environ := env_of "alice"; log := [];
        calls := [CallClient "en-US" None;
                  CallLoadCookies ["home"; "u"; ".mcp-twikit"; "cookies.json"];
                  CallGetUserByScreenName "ghost"] |}).
Proof.
  exact (unresolved_user_no_action (stub_api (inr fresh_blob) (λ _, inr None)) g0
           UTBlockUser "@ghost" (logged_in_state (env_of "alice") stored_blob) _ _
           eq_refl eq_refl).
Defined.

(** X11. For each of the eight user-name tools: when the session is acquired
    and the lookup raises, the lookup is the only network call, and the tool
    returns a text beginning with ["Failed to"], which is also the last line
    logged. *)
Theorem lookup_error_no_action (api : TwikitAPI) (g : Globals) (u : UserTool)
    (name : string) (s s1 : State) (client : Client) (e : exn) :
  get_twitter_client api g s = (inr client, s1) →
  api_get_user_by_screen_name api client (lstrip "@" name) = inl e →
  calls (run_tool api g (user_tool_call u name) s).2
    = calls s1 ++ [CallGetUserByScreenName (lstrip "@" name)]
  ∧ ∃ out, (run_tool api g (user_tool_call u name) s).1 = inr out
           ∧ startswith out "Failed to" = true
           ∧ last (log (run_tool api g (user_tool_call u name) s).2) = Some out.
Proof.
  intros Hs Herr.
  destruct u; unfold_tools; run; rewrite Hs; simpl; rewrite Herr; simpl;
    (split; [reflexivity|]); eexists; (split; [reflexivity|]);
    (split; [reflexivity | apply last_snoc]).
Qed.

Lemma lookup_error_no_action_witness :
  calls (run_tool (stub_api (inr fresh_blob) (λ _, inl (Exception "rate limit"))) g0
           (FollowUser "@bob") (logged_in_state (env_of "alice") stored_blob)).2
  = [CallClient "en-US" None;
     CallLoadCookies ["home"; "u"; ".mcp-twikit"; "cookies.json"];
     CallGetUserByScreenName "bob"].
Proof.
  pose proof (lookup_error_no_action
                (stub_api (inr fresh_blob) (λ _, inl (Exception "rate limit"))) g0
                UTFollowUser "@bob" (logged_in_state (env_of "alice") stored_blob)
                _ _ (Exception "rate limit") eq_refl eq_refl) as H.
  destruct H as (Hcalls & _). exact Hcalls.
Defined.

(** X12. For each of the eight user-name tools: when the session is acquired
    and the lookup yields a user, the network calls are the lookup of the
    stripped name followed by the tool's own call, made on the identifier of
    the user the lookup returned (the lookup tool makes no second call). *)
Theorem resolved_user_action_on_id (api : TwikitAPI) (g : Globals) (u : UserTool)
    (name : string) (s s1 : State) (client : Client) (user : User) :
  get_twitter_client api g s = (inr client, s1) →
  api_get_user_by_screen_name api client (lstrip "@" name) = inr (Some user) →
  calls (run_tool api g (user_tool_call u name) s).2
  = calls s1 ++ CallGetUserByScreenName (lstrip "@" name)
               :: user_tool_action u (user_id user).
Proof.
  intros Hs Hsome.
  destruct u; unfold_tools; run; rewrite Hs; simpl; rewrite Hsome; simpl;
    destruct_matches; rewrite <- ?app_assoc; reflexivity.
Qed.

Lemma resolved_user_action_on_id_witness :
  calls (run_tool (stub_api (inr fresh_blob) (λ n, inr (Some (user_named n)))) g0
           (UnfollowUser "@bob") (logged_in_state (env_of "alice") stored_blob)).2
  = [CallClient "en-US" None;
     CallLoadCookies ["home"; "u"; ".mcp-twikit"; "cookies.json"];
     CallGetUserByScreenName "bob"; CallUnfollowUser ""].
Proof.
  exact (resolved_user_action_on_id
           (stub_api (inr fresh_blob) (λ n, inr (Some (user_named n)))) g0
           UTUnfollowUser "@bob" (logged_in_state (env_of "alice") stored_blob)
           _ _ (user_named "bob") eq_refl eq_refl).
Defined.

(** X13. The failure texts of [get_user_followers] and [get_user_following]
    name the user as the variable stands when the exception is raised: the
    name as it was passed when session acquisition raises, the name without
    its leading at signs when the lookup raises. *)
Theorem followers_failure_names_user (api : TwikitAPI) (g : Globals) (name : string)
    (count : Z) (s : State) :
  match get_twitter_client api g s with
  | (inl e, _) =>
      (get_user_followers api g name count s).1
        = inr ("Failed to get followers for user " +:+ name +:+ ": " +:+ str e)
      ∧ (get_user_following api g name count s).1
        = inr ("Failed to get following list for user " +:+ name +:+ ": " +:+ str e)
  | (inr client, _) =>
      ∀ e, api_get_user_by_screen_name api client (lstrip "@" name) = inl e →
        (get_user_followers api g name count s).1
          = inr ("Failed to get followers for user " +:+ lstrip "@" name +:+ ": " +:+ str e)
        ∧ (get_user_following api g name count s).1
          = inr ("Failed to get following list for user " +:+ lstrip "@" name
                 +:+ ": " +:+ str e)
  end.
Proof.
  unfold_tools; run.
  destruct (get_twitter_client api g s) as [[e|client] s1]; simpl.
  - split; reflexivity.
  - intros e Herr. rewrite Herr. split; reflexivity.
Qed.

(** ** Successive invocations *)

Lemma run_tool_returns (api : TwikitAPI) (g : Globals) (t : ToolCall) (s : State) :
  ∃ out, (run_tool api g t s).1 = inr out.
Proof.
  destruct t; unfold_tools; run;
    destruct (get_twitter_client api g s) as [[e|client] s1]; simpl;
    destruct_matches; eexists; reflexivity.
Qed.

Lemma run_tool_session_raises (api : TwikitAPI) (g : Globals) (t : ToolCall)
    (s s1 : State) (e : exn) :
  get_twitter_client api g s = (inl e, s1) →
  ∃ out, run_tool api g t s = (inr out, add_log out s1)
         ∧ startswith out "Failed to" = true.
Proof.
  intros Hs. destruct t; unfold_tools; run; rewrite Hs; simpl;
    eexists; split; reflexivity.
Qed.

Lemma network_not_login (made : list Call) :
  forallb is_network made = true → List.filter is_login made = [].
Proof.
  induction made as [|c made IH]; [reflexivity|].
  simpl. intros [Hc Hmade]%andb_prop.
  destruct c; try discriminate Hc; simpl; auto.
Qed.

Lemma run_tools_with_artifact (api : TwikitAPI) (g : Globals) (ts : list ToolCall)
    (s : State) (blob : string) :
  files (fs s) !! COOKIES_PATH g = Some blob →
  fs (run_tools api g ts s).2 = fs s
  ∧ (∃ made, calls (run_tools api g ts s).2 = calls s ++ made
             ∧ List.filter is_login made = [])
  ∧ Forall (λ r, ∃ out, r = inr out) (run_tools api g ts s).1.
Proof.
  revert s. induction ts as [|t ts IH]; intros s Hfile.
  { simpl. split; [reflexivity|]. split; [|constructor].
    exists []. by rewrite app_nil_r. }
  pose proof (run_tool_fs api g t s) as Hfs.
  pose proof (run_tool_calls api g t s) as (made1 & Hcalls & Hnet & _).
  pose proof (run_tool_returns api g t s) as Hout.
  rewrite (session_from_artifact api g s blob Hfile) in Hfs, Hcalls.
  cbn [snd fs calls add_call] in Hfs, Hcalls.
  simpl run_tools.
  destruct (run_tool api g t s) as [r s1]. cbn [fst snd] in *.
  assert (Hfile1 : files (fs s1) !! COOKIES_PATH g = Some blob) by by rewrite Hfs.
  destruct (IH s1 Hfile1) as (IHfs & (made & IHcalls & IHlogin) & IHres).
  destruct (run_tools api g ts s1) as [rs s2]. cbn [fst snd] in *.
  split; [by rewrite IHfs|]. split; [|by constructor].
  exists ([CallClient "en-US" (USER_AGENT g); CallLoadCookies (COOKIES_PATH g)]
          ++ made1 ++ made).
  split.
  - rewrite IHcalls, Hcalls. by rewrite <- !app_assoc.
  - rewrite !List.filter_app, IHlogin, (network_not_login made1 Hnet). reflexivity.
Qed.

(** X14. Once the artifact file is stored, no sequence of tool invocations
    ever logs in or changes the file system, whatever the service answers,
    and every invocation returns a text. *)
Theorem invocations_with_artifact (api : TwikitAPI) (g : Globals) (ts : list ToolCall)
    (s : State) (blob : string) :
  files (fs s) !! COOKIES_PATH g = Some blob →
  fs (run_tools api g ts s).2 = fs s
  ∧ (∃ made, calls (run_tools api g ts s).2 = calls s ++ made
             ∧ List.filter is_login made = [])
  ∧ Forall (λ r, ∃ out, r = inr out) (run_tools api g ts s).1.
Proof. apply run_tools_with_artifact. Qed.

Lemma invocations_with_artifact_witness :
  fs (run_tools (stub_api (inr fresh_blob) (λ _, inl (Exception "expired"))) g0
        [GetTimeline 20; FollowUser "@bob"; GetTrends "news" 5]
        (logged_in_state (env_of "alice") stored_blob)).2
  = fs (logged_in_state (env_of "alice") stored_blob).
Proof.
  pose proof (invocations_with_artifact
                (stub_api (inr fresh_blob) (λ _, inl (Exception "expired"))) g0
                [GetTimeline 20; FollowUser "@bob"; GetTrends "news" 5]
                (logged_in_state (env_of "alice") stored_blob) stored_blob) as H.
  destruct H as (Hfs & _); [reflexivity|].
  exact Hfs.
Defined.

(** X15. Starting with nothing at the cookie path, if the first invocation's
    session acquisition returns a client (the login succeeded and the
    artifact could be saved), then any sequence of invocations that follows
    makes no further login: the whole sequence logs in exactly once, and it
    ends with the artifact holding that client's cookies. *)
Theorem invocations_log_in_once (api : TwikitAPI) (g : Globals) (t : ToolCall)
    (ts : list ToolCall) (s s1 : State) (client : Client) :
  fs_exists (COOKIES_PATH g) (fs s) = false →
  get_twitter_client api g s = (inr client, s1) →
  (∃ made, calls (run_tools api g (t :: ts) s).2 = calls s ++ made
           ∧ List.filter is_login made
             = [CallLogin (USERNAME g) (EMAIL g) (PASSWORD g)])
  ∧ files (fs (run_tools api g (t :: ts) s).2) !! COOKIES_PATH g = cookies client.
Proof.
  intros Hno Hs.
  pose proof (run_tool_fs api g t s) as Hfs.
  pose proof (run_tool_calls api g t s) as (made1 & Hcalls & Hnet & _).
  destruct (session_login_returned api g s s1 client Hno Hs) as (ck & -> & Hfile & Hs1).
  rewrite Hs in Hfs, Hcalls. cbn [snd] in Hfs, Hcalls. rewrite Hs1 in Hcalls.
  simpl run_tools.
  destruct (run_tool api g t s) as [r s2]. cbn [fst snd] in *.
  assert (Hfile2 : files (fs s2) !! COOKIES_PATH g = Some ck) by by rewrite Hfs.
  destruct (run_tools_with_artifact api g ts s2 ck Hfile2)
    as (IHfs & (made & IHcalls & IHlogin) & _).
  destruct (run_tools api g ts s2) as [rs s3]. cbn [fst snd] in *.
  split; [|by rewrite IHfs].
  exists ([CallClient "en-US" (USER_AGENT g);
           CallLogin (USERNAME g) (EMAIL g) (PASSWORD g);
           CallMkdir (parent (COOKIES_PATH g)); CallSaveCookies (COOKIES_PATH g)]
          ++ made1 ++ made).
  split.
  - rewrite IHcalls, Hcalls. by rewrite <- !app_assoc.
  - rewrite !List.filter_app, IHlogin, (network_not_login made1 Hnet). reflexivity.
Qed.

Lemma invocations_log_in_once_witness :
  files (fs (run_tools (stub_api (inr fresh_blob) (λ _, inr None)) g0
               [GetTimeline 20; FollowUser "@bob"]
               (fresh_state (env_of "alice"))).2) !! COOKIES_PATH g0
  = Some fresh_blob.
Proof.
  pose proof (invocations_log_in_once (stub_api (inr fresh_blob) (λ _, inr None)) g0
                (GetTimeline 20) [FollowUser "@bob"] (fresh_state (env_of "alice"))
                (get_twitter_client (stub_api (inr fresh_blob) (λ _, inr None)) g0
                   (fresh_state (env_of "alice"))).2
                {| language := "en-US"; user_agent := None; cookies := Some fresh_blob |})
    as H.
  destruct H as (_ & Hfile); [vm_compute; reflexivity | vm_compute; reflexivity |].
  exact Hfile.
Defined.

(** X16. Starting with nothing at the cookie path and a login that raises,
    a failure is not remembered: every invocation of a sequence attempts the
    login again, none makes a network call beyond it, the file system stays
    as it was, and every invocation returns a text beginning with
    ["Failed to"]. *)
Theorem invocations_retry_failed_login (api : TwikitAPI) (g : Globals)
    (ts : list ToolCall) (s : State) (e : exn) :
  fs_exists (COOKIES_PATH g) (fs s) = false →
  api_login api (twikit_Client "en-US" (USER_AGENT g)) (USERNAME g) (EMAIL g) (PASSWORD g)
    = inl e →
  fs (run_tools api g ts s).2 = fs s
  ∧ (∃ made, calls (run_tools api g ts s).2 = calls s ++ made
             ∧ List.length (List.filter is_login made) = List.length ts
             ∧ List.filter is_network made = [])
  ∧ Forall (λ r, ∃ out, r = inr out ∧ startswith out "Failed to" = true)
           (run_tools api g ts s).1.
Proof.
  intros Hno Hlogin. revert s Hno.
  induction ts as [|t ts IH]; intros s Hno.
  { simpl. split; [reflexivity|]. split; [|constructor].
    exists []. by rewrite app_nil_r. }
  pose proof (session_login_raises api g s e Hno Hlogin) as Hs.
  destruct (run_tool_session_raises api g t s _ e Hs) as (out & Htool & Hstart).
  simpl run_tools. rewrite Htool.
  match goal with |- context [run_tools api g ts ?s1] => set (s1' := s1) end.
  assert (Hno1 : fs_exists (COOKIES_PATH g) (fs s1') = false) by exact Hno.
  destruct (IH s1' Hno1) as (IHfs & (made & IHcalls & IHlogin & IHnet) & IHres).
  destruct (run_tools api g ts s1') as [rs s2]. cbn [fst snd] in *.
  split; [by rewrite IHfs|]. split; [|constructor; eauto].
  exists ([CallClient "en-US" (USER_AGENT g);
           CallLogin (USERNAME g) (EMAIL g) (PASSWORD g)] ++ made).
  split; [|split].
  - rewrite IHcalls. subst s1'. cbn. by rewrite <- !app_assoc.
  - rewrite List.filter_app, List.length_app, IHlogin. reflexivity.
  - rewrite List.filter_app, IHnet. reflexivity.
Qed.

Lemma invocations_retry_failed_login_witness :
  fs (run_tools (stub_api (inl (Exception "boom")) (λ _, inr None)) g0
        [GetTimeline 20; FollowUser "@bob"] (fresh_state (env_of "alice"))).2
  = fs (fresh_state (env_of "alice")).
Proof.
  pose proof (invocations_retry_failed_login
                (stub_api (inl (Exception "boom")) (λ _, inr None)) g0
                [GetTimeline 20; FollowUser "@bob"] (fresh_state (env_of "alice"))
                (Exception "boom")) as H.
  destruct H as (Hfs & _); [vm_compute; reflexivity | reflexivity |].
  exact Hfs.
Defined.
